(** * AI Disaster Navigator: a shallow embedding of [app.py]

    The development follows the three parts of the script that carry logic:
    - [decode_polyline], the polyline decoder (a small-step machine over the
      Python locals, one step per loop test);
    - [get_safe_route], the route assembly with its simulated blockages
      (an error monad over Python values);
    - the submission flow run on [submitted], a fail-fast sequence of three
      collaborator calls (an event trace).

    Python integers are unbounded, so they are [Z]; Python floats are IEEE
    binary64, so they are the primitive [float]s; a Python [str] is its
    sequence of code points. *)

From Stdlib Require Import ZArith List String Ascii Bool Lia QArith Qabs.
From Stdlib Require DecimalString.
From Stdlib Require Import PrimFloat.
From Stdlib Require FloatOps SpecFloat.
Import ListNotations.

Local Open Scope Z_scope.

(** ** Python outcomes *)

(** The exceptions the modelled code can raise or let through. *)
Inductive exn : Type :=
| KeyError
| IndexError
| TypeError
| AttributeError
| OverflowError
| JSONDecodeError
| StopException
| RequestException (detail : string)
| OtherException (detail : string).

(** A call either returns a value or raises. *)
Inductive outcome (A : Type) : Type :=
| Returns (a : A)
| Raises (e : exn).
Arguments Returns {A} a.
Arguments Raises {A} e.

Definition bind {A B : Type} (o : outcome A) (k : A -> outcome B) : outcome B :=
  match o with
  | Returns a => k a
  | Raises e => Raises e
  end.

Notation "x <- c1 ;; c2" := (bind c1 (fun x => c2))
  (at level 61, c1 at next level, right associativity).

(** ** Floats *)

(** [float(z)] for a Python int: the nearest binary64 value, ties to even;
    [OverflowError] when the int is beyond the finite range. *)
Definition float_of_int (z : Z) : outcome float :=
  let f := FloatOps.SF2Prim
             (SpecFloat.binary_normalize FloatOps.prec FloatOps.emax z 0 false) in
  if PrimFloat.is_infinity f then Raises OverflowError else Returns f.

(** [z * x] for an int [z] and a float [x]: the int is converted first. *)
Definition int_mul_float (z : Z) (x : float) : outcome float :=
  f <- float_of_int z ;; Returns (PrimFloat.mul f x).

(** The exact rational value of a finite float. *)
Definition Q_of_float (f : float) : option Q :=
  match FloatOps.Prim2SF f with
  | SpecFloat.S754_zero _ => Some (0 # 1)%Q
  | SpecFloat.S754_finite s m e =>
      let n := if s then Z.neg m else Z.pos m in
      Some (match e with
            | Z0 => inject_Z n
            | Z.pos p => inject_Z (n * 2 ^ Z.pos p)
            | Z.neg p => (n # (2 ^ p))%Q
            end)
  | _ => None
  end.

(** [|f - q| <= 1e-5], the tolerance of the decoder's contract. *)
Definition within_1e5 (f : float) (q : Q) : bool :=
  match Q_of_float f with
  | Some v => Qle_bool (Qabs (v - q)) (1 # 100000)
  | None => false
  end.

(** ** The polyline decoder *)

(** A Python [str], as its code points. *)
Definition str : Type := list N.

Definition str_of_string (s : string) : str :=
  map N_of_ascii (list_ascii_of_string s).

Definition len (s : str) : nat := List.length s.

Definition ord (c : N) : Z := Z.of_N c.

Definition coordinate : Type := (float * float)%type.

(** The local variables of [decode_polyline]. [coord], [shift] and [result]
    are unbound until the [for] body first runs; they are never read before
    they are assigned, so their initial value here is immaterial. *)
Record locals : Type := mkLocals {
  coordinates : list coordinate;
  index : nat;
  lat : Z;
  lng : Z;
  coord : Z;
  shift : Z;
  result : Z
}.

(** Where the decoder stands: at the entry test (line 125), at the test of
    the outer [while] (line 128), or at the top of the inner [while True]
    (line 131), with the items [for coord in [lat, lng]] has yet to bind. *)
Inductive control : Type :=
| AtEntry
| AtWhile
| AtGroup (pending : list Z).

Inductive config : Type :=
| Running (c : control) (l : locals)
| Done (o : outcome (list coordinate)).

Definition initial : config :=
  Running AtEntry (mkLocals [] 0%nat 0 0 0 0 0).

(** [coord += ~(result >> 1) if (result & 1) else (result >> 1)] *)
Definition delta (result : Z) : Z :=
  if Z.eqb (Z.land result 1) 0 then Z.shiftr result 1
  else Z.lnot (Z.shiftr result 1).

(** The float literal [1e-5]: the binary64 value nearest to it. *)
#[warnings="-inexact-float"]
Definition scale : float := 1e-5%float.

(** [(lat * 1e-5, lng * 1e-5)] *)
Definition scaled (lat lng : Z) : outcome coordinate :=
  y <- int_mul_float lat scale ;;
  x <- int_mul_float lng scale ;;
  Returns (y, x).

Section Decoder.

Variable polyline_str : str.

(** One step: from one loop test to the next. *)
Definition step (c : config) : config :=
  match c with
  | Done o => Done o
  | Running AtEntry l =>
      (* if not polyline_str: return coordinates *)
      match polyline_str with
      | [] => Done (Returns (coordinates l))
      | _ :: _ => Running AtWhile l
      end
  | Running AtWhile l =>
      (* while index < len(polyline_str): for coord in [lat, lng]: *)
      if (index l <? len polyline_str)%nat
      then Running (AtGroup [lng l])
             (mkLocals (coordinates l) (index l) (lat l) (lng l) (lat l) 0 0)
      else Done (Returns (coordinates l))
  | Running (AtGroup pending) l =>
      if (len polyline_str <=? index l)%nat
      then Done (Returns (coordinates l))
      else
        match nth_error polyline_str (index l) with
        | None => Done (Raises IndexError)
        | Some ch =>
            let b := ord ch - 63 in
            let index' := S (index l) in
            let result' := Z.lor (result l) (Z.shiftl (Z.land b 0x1f) (shift l)) in
            let shift' := shift l + 5 in
            if b <? 0x20
            then
              (* break; then the augmented assignment to [coord] *)
              let coord' := coord l + delta result' in
              match pending with
              | next :: rest =>
                  (* the [for] binds [coord] to its next item *)
                  Running (AtGroup rest)
                    (mkLocals (coordinates l) index' (lat l) (lng l) next 0 0)
              | [] =>
                  (* the [for] is exhausted: coordinates.append(...) *)
                  match scaled (lat l) (lng l) with
                  | Returns p =>
                      Running AtWhile
                        (mkLocals (coordinates l ++ [p]) index' (lat l) (lng l)
                           coord' shift' result')
                  | Raises e => Done (Raises e)
                  end
              end
            else
              Running (AtGroup pending)
                (mkLocals (coordinates l) index' (lat l) (lng l)
                   (coord l) shift' result')
        end
  end.

Fixpoint run (fuel : nat) (c : config) : config :=
  match fuel with
  | O => c
  | S fuel' => run fuel' (step c)
  end.

End Decoder.

(** The decoder run for as many steps as any input of that length can take;
    [None] would mean the steps did not suffice. *)
Definition decode_polyline (polyline_str : str) : option (outcome (list coordinate)) :=
  match run polyline_str (2 * len polyline_str + 3) initial with
  | Done o => Some o
  | Running _ _ => None
  end.

Definition google_example : str := str_of_string "_p~iF~ps|U_ulLnnqC_mqNvxq`@".

(** The reference string cut inside its third group, ["_p~iF~ps|U_u"]. *)
Definition cut_example : str := firstn 12 google_example.


(** *** What the decoder's result depends on *)

(** A character ends its group when [ord(ch) - 63 < 0x20]. *)
Definition terminates_group (ch : N) : bool := ord ch - 63 <? 0x20.

Definition terminators (s : str) : nat :=
  List.length (filter terminates_group s).

(** The pairs of groups that are complete in [s]. *)
Definition completed_pairs (s : str) : nat := (terminators s / 2)%nat.

Definition origin : coordinate := (0%float, 0%float).

(** The steps a configuration can still take, at most. *)
Definition measure (s : str) (c : config) : nat :=
  match c with
  | Done _ => 0
  | Running AtEntry l => 2 * (len s - index l) + 3
  | Running AtWhile l => 2 * (len s - index l) + 2
  | Running (AtGroup _) l => 2 * (len s - index l) + 1
  end%nat.

(** The groups the current [for] still owes before a coordinate is appended,
    counted against the terminators to come. *)
Definition owed (c : control) : nat :=
  match c with
  | AtGroup [] => 1
  | _ => 0
  end.

(** What holds of every configuration the decoder reaches: the accumulators
    are still zero, the cursor is within the string, and the [for] has at
    most the longitude left. *)
Definition reachable (s : str) (c : control) (l : locals) : Prop :=
  lat l = 0 /\ lng l = 0 /\ (index l <= len s)%nat /\
  match c with
  | AtEntry => index l = 0%nat
  | AtWhile => True
  | AtGroup pending => pending = [] \/ pending = [0]
  end.

(** The result a reachable configuration is bound for. *)
Definition destined (s : str) (c : control) (l : locals) : list coordinate :=
  coordinates l ++
  repeat origin ((owed c + terminators (skipn (index l) s)) / 2)%nat.

(** *** The decoder as the specification words it

    Section 4.1 of the specification: two running accumulators, each decoded
    delta added to the accumulator of its axis, one coordinate emitted per
    pair of groups, and a group cut short by the end of the input dropped.
    [second] tells which axis the group being read belongs to. *)
Fixpoint spec_decode_from (s : str) (second : bool)
    (shift result lat lng : Z) : outcome (list coordinate) :=
  match s with
  | [] => Returns []
  | ch :: s' =>
      let b := ord ch - 63 in
      let result' := Z.lor result (Z.shiftl (Z.land b 0x1f) shift) in
      if b <? 0x20
      then
        if second
        then
          let lng' := lng + delta result' in
          p <- scaled lat lng' ;;
          ps <- spec_decode_from s' false 0 0 lat lng' ;;
          Returns (p :: ps)
        else spec_decode_from s' true 0 0 (lat + delta result') lng
      else spec_decode_from s' second (shift + 5) result' lat lng
  end.

Definition spec_decode (s : str) : outcome (list coordinate) :=
  spec_decode_from s false 0 0 0 0.

(** Both axes of [c] within 1e-5 of the expected pair. *)
Definition close_to (c : coordinate) (expected : Q * Q) : bool :=
  within_1e5 (fst c) (fst expected) && within_1e5 (snd c) (snd expected).

Fixpoint all_close (cs : list coordinate) (expected : list (Q * Q)) : bool :=
  match cs, expected with
  | [], [] => true
  | c :: cs', e :: expected' => close_to c e && all_close cs' expected'
  | _, _ => false
  end.

(** [(38.5,-120.2), (40.7,-120.95), (43.252,-126.453)] *)
Definition google_expected : list (Q * Q) :=
  [ (385 # 10, - (1202 # 10)); (407 # 10, - (12095 # 100));
    (43252 # 1000, - (126453 # 1000)) ]%Q.


(** ** Python values *)

(** What [response.json()] can return, and what the functions below build
    from it. A dict is listed by its entries, each key once; the keys of a
    JSON object are strings. A [string] here is a [str] of code points
    below 256. *)
#[warnings="-register-all"]
Inductive value : Type :=
| VNone
| VBool (b : bool)
| VInt (z : Z)
| VFloat (f : float)
| VStr (s : string)
| VList (items : list value)
| VDict (entries : list (string * value)).

Fixpoint lookup (key : string) (entries : list (string * value)) : option value :=
  match entries with
  | [] => None
  | (k, v) :: rest => if String.eqb key k then Some v else lookup key rest
  end.

(** [d.get(key, default)] *)
Definition get (d : value) (key : string) (default : value) : outcome value :=
  match d with
  | VDict entries =>
      Returns (match lookup key entries with Some v => v | None => default end)
  | _ => Raises AttributeError
  end.

(** [v[key]] for a string [key] *)
Definition getitem (v : value) (key : string) : outcome value :=
  match v with
  | VDict entries =>
      match lookup key entries with
      | Some x => Returns x
      | None => Raises KeyError
      end
  | _ => Raises TypeError
  end.

(** [v[0]] *)
Definition first (v : value) : outcome value :=
  match v with
  | VList (x :: _) => Returns x
  | VList [] => Raises IndexError
  | VStr (String c _) => Returns (VStr (String c EmptyString))
  | VStr EmptyString => Raises IndexError
  | VDict _ => Raises KeyError
  | _ => Raises TypeError
  end.

(** The items [for x in v] binds, in order. *)
Definition iter (v : value) : outcome (list value) :=
  match v with
  | VList items => Returns items
  | VStr s => Returns (map (fun c => VStr (String c EmptyString)) (list_ascii_of_string s))
  | VDict entries => Returns (map (fun kv => VStr (fst kv)) entries)
  | _ => Raises TypeError
  end.

(** [key in d] for a dict, [key in s] for a str (a substring test). *)
Fixpoint substring_of (key s : string) : bool :=
  String.prefix key s ||
  match s with
  | EmptyString => false
  | String _ s' => substring_of key s'
  end.

Definition contains_key (v : value) (key : string) : outcome bool :=
  match v with
  | VDict entries =>
      Returns (match lookup key entries with Some _ => true | None => false end)
  | VStr s => Returns (substring_of key s)
  | VList items =>
      Returns (existsb (fun x => match x with VStr s => String.eqb s key | _ => false end) items)
  | _ => Raises TypeError
  end.

(** *** True division and [:.1f] *)

(** [n / d] for two ints: the binary64 value nearest to the quotient, ties
    to even. The quotient is taken with enough extra bits, and a last bit
    that records a non-zero remainder. *)
Definition int_truediv (n : Z) (d : positive) : outcome float :=
  let k := Z.log2 (Z.pos d) + 65 in
  let q := (Z.abs n * 2 ^ k) / Z.pos d in
  let sticky := if (Z.abs n * 2 ^ k) mod Z.pos d =? 0 then 0 else 1 in
  let m := 2 * q + sticky in
  let f := FloatOps.SF2Prim
             (SpecFloat.binary_normalize FloatOps.prec FloatOps.emax
                (if n <? 0 then - m else m) (- (k + 1)) false) in
  if PrimFloat.is_infinity f then Raises OverflowError else Returns f.

(** [v / d] for the int literal [d] *)
Definition truediv (v : value) (d : positive) : outcome float :=
  match v with
  | VInt z => int_truediv z d
  | VBool b => int_truediv (if b then 1 else 0) d
  | VFloat f => y <- float_of_int (Z.pos d) ;; Returns (PrimFloat.div f y)
  | _ => Raises TypeError
  end.

Definition decimal (n : Z) : string :=
  DecimalString.NilZero.string_of_uint (N.to_uint (Z.to_N n)).

(** [n / d] rounded to the nearest integer, ties to even ([0 <= n], [0 < d]). *)
Definition round_half_even (n d : Z) : Z :=
  let q := n / d in
  match 2 * (n mod d) ?= d with
  | Lt => q
  | Gt => q + 1
  | Eq => if Z.even q then q else q + 1
  end.

(** [f"{x:.1f}"]: the exact value of [x] rounded to one decimal, ties to
    even, with every digit of the integer part. *)
Definition format_1f (x : float) : string :=
  match FloatOps.Prim2SF x with
  | SpecFloat.S754_nan => "nan"
  | SpecFloat.S754_infinity s => if s then "-inf" else "inf"
  | SpecFloat.S754_zero s => if s then "-0.0" else "0.0"
  | SpecFloat.S754_finite s m e =>
      let tenths :=
        match e with
        | Z.neg p => round_half_even (10 * Z.pos m) (2 ^ Z.pos p)
        | _ => 10 * Z.pos m * 2 ^ e
        end in
      ((if s then "-" else "") ++ decimal (tenths / 10) ++ "." ++
       decimal (tenths mod 10))%string
  end.

(** ** Route assembly *)

(** [c.lower()] for a code point below 256: the capitals [A]-[Z], and the
    Latin-1 capitals U+00C0-U+00DE but for the sign U+00D7, are 32 below
    their small letters. *)
Definition lower_char (c : ascii) : ascii :=
  let n := N_of_ascii c in
  if ((65 <=? n) && (n <=? 90) ||
      (192 <=? n) && (n <=? 222) && negb (n =? 215))%N
  then ascii_of_N (n + 32)
  else c.

Fixpoint lower (s : string) : string :=
  match s with
  | EmptyString => EmptyString
  | String c s' => String (lower_char c) (lower s')
  end.

(** The table of line 88, a dict literal. *)
Definition simulated_blockages : list (string * list string) :=
  [ ("flood", ["Main Street"; "River Road"]);
    ("fire", ["Forest Highway"; "Mountain Pass"]);
    ("earthquake", ["Bridge Approach"; "Tunnel Road"]) ]%string.

Fixpoint table_get (key : string) (table : list (string * list string))
    (default : list string) : list string :=
  match table with
  | [] => default
  | (k, roads) :: rest =>
      if String.eqb key k then roads else table_get key rest default
  end.

(** [v in roads] for a list of strings: only a [str] equals a [str]. *)
Definition among (v : value) (roads : list string) : bool :=
  match v with
  | VStr s => existsb (String.eqb s) roads
  | _ => false
  end.

(** The body of the loop of line 95, for one [step]: the dict that
    [route_steps.append] receives. The entries are evaluated in the order
    they are written. *)
Definition route_step (disaster_type : string) (step : value) : outcome value :=
  road_name <- get step "name" (VStr "Unnamed Road") ;;
  let blockage :=
    among road_name (table_get (lower disaster_type) simulated_blockages []) in
  maneuver <- getitem step "maneuver" ;;
  instruction <- getitem maneuver "instruction" ;;
  distance <- getitem step "distance" ;;
  km <- truediv distance 1000 ;;
  duration <- getitem step "duration" ;;
  minutes <- truediv duration 60 ;;
  Returns (VDict
    [ ("instruction", instruction);
      ("distance", VStr (format_1f km ++ " km"));
      ("duration", VStr (format_1f minutes ++ " min"));
      ("road", road_name);
      ("blocked", VBool blockage);
      ("alternative", if blockage then VStr "Use Service Lane" else VNone) ]%string).

(** The loop of line 95 over the items still to come, [route_steps] being
    the list built so far. *)
Fixpoint for_steps (disaster_type : string) (steps route_steps : list value)
    : outcome (list value) :=
  match steps with
  | [] => Returns route_steps
  | step :: rest =>
      annotated <- route_step disaster_type step ;;
      for_steps disaster_type rest (route_steps ++ [annotated])
  end.

(** [route_data['routes'][0]] *)
Definition first_route (route_data : value) : outcome value :=
  routes <- getitem route_data "routes" ;; first routes.

(** The items of [route_data['routes'][0]['legs'][0]['steps']]. *)
Definition raw_steps (route_data : value) : outcome (list value) :=
  route <- first_route route_data ;;
  legs <- getitem route "legs" ;;
  leg <- first legs ;;
  steps <- getitem leg "steps" ;;
  iter steps.

Definition is_Ok (code : value) : bool :=
  match code with
  | VStr s => String.eqb s "Ok"
  | _ => false
  end.

(** Lines 85 to 113: what the [try] block does with the parsed response. *)
Definition assemble (route_data : value) (disaster_type : string) : outcome value :=
  code <- get route_data "code" VNone ;;
  if negb (is_Ok code)
  then Returns (VDict [("error", VStr "No route found")]%string)
  else
    steps <- raw_steps route_data ;;
    route_steps <- for_steps disaster_type steps [] ;;
    route <- first_route route_data ;;
    distance <- getitem route "distance" ;;
    route <- first_route route_data ;;
    duration <- getitem route "duration" ;;
    route <- first_route route_data ;;
    polyline <- getitem route "geometry" ;;
    Returns (VDict
      [ ("distance", distance);
        ("duration", duration);
        ("steps", VList route_steps);
        ("polyline", polyline) ]%string).

(** The two [except] clauses of lines 114 to 117; any other exception
    leaves the function. *)
Definition handled (o : outcome value) : outcome value :=
  match o with
  | Raises (RequestException detail) =>
      Returns (VDict [("error", VStr ("Routing service error: " ++ detail))]%string)
  | Raises KeyError =>
      Returns (VDict [("error", VStr "Invalid route data format")]%string)
  | _ => o
  end.

(** A point as the callers pass it, [(lat, lon)]. *)
Definition point : Type := (value * value)%type.

Section Routing.

(** The routing collaborator, lines 80 to 83: the request sent for the two
    points, [raise_for_status] and [response.json()]. It returns the parsed
    body or raises, a [RequestException] among others. *)
Variable request_route : point -> point -> outcome value.

Definition get_safe_route (start_coord end_coord : point)
    (disaster_type : string) : outcome value :=
  handled (route_data <- request_route start_coord end_coord ;;
           assemble route_data disaster_type).

End Routing.

Definition sample_step (name : string) : value :=
  VDict [ ("name", VStr name);
          ("maneuver", VDict [("instruction", VStr "Turn left")]);
          ("distance", VInt 1500);
          ("duration", VFloat 95.5) ]%string.

Definition sample_route (code : string) : value :=
  VDict [ ("code", VStr code);
          ("routes", VList [ VDict
             [ ("legs", VList [ VDict
                  [ ("steps", VList [sample_step "Main Street"; sample_step "Oak Ave"]) ] ]);
               ("distance", VInt 3000);
               ("duration", VFloat 191);
               ("geometry", VStr "_p~iF~ps|U_ulLnnqC_mqNvxq`@") ] ]) ]%string.

Definition here : point := (VFloat 12.5, VFloat 77.5).
Definition there : point := (VFloat 12.75, VFloat 77.25).

(** *** Notions the claims about the route are stated with *)

(** The blocked flag line 97 computes for a road name. *)
Definition blockage_of (disaster_type : string) (road_name : value) : bool :=
  among road_name (table_get (lower disaster_type) simulated_blockages []).

(** The dict a step is annotated into, given what was read from it. *)
Definition annotated (instruction road_name : value) (km minutes : float)
    (blockage : bool) : value :=
  VDict
    [ ("instruction", instruction);
      ("distance", VStr (format_1f km ++ " km"));
      ("duration", VStr (format_1f minutes ++ " min"));
      ("road", road_name);
      ("blocked", VBool blockage);
      ("alternative", if blockage then VStr "Use Service Lane" else VNone) ]%string.


(** [d] is not a key of the table of blockages, whatever its case. *)
Definition unrecognized (disaster_type : string) : Prop :=
  lower disaster_type <> "flood"%string /\
  lower disaster_type <> "fire"%string /\
  lower disaster_type <> "earthquake"%string.

(** ** The submission flow *)

(** What a run of the script does that can be seen from outside: the calls
    to its collaborators and the Streamlit calls. *)
Inductive event : Type :=
| CallResources
| CallRouting
| NewClient
| CallGeneration
| StWarning (body : string)
| StError (body : string)
| StSuccess
| Presented.

(** A piece of the script: it extends the log of events, and returns or
    raises. *)
Definition script (A : Type) : Type := list event -> list event * outcome A.

Definition ret {A : Type} (a : A) : script A := fun log => (log, Returns a).

Definition lift {A : Type} (o : outcome A) : script A := fun log => (log, o).

Definition seq {A B : Type} (c : script A) (k : A -> script B) : script B :=
  fun log =>
    match c log with
    | (log', Returns a) => k a log'
    | (log', Raises e) => (log', Raises e)
    end.

Notation "x <~ c1 ;; c2" := (seq c1 (fun x => c2))
  (at level 61, c1 at next level, right associativity).
Notation "c1 >> c2" := (seq c1 (fun _ => c2))
  (at level 61, right associativity).

Definition emit (e : event) : script unit := fun log => (log ++ [e], Returns tt).

(** A call to a collaborator: logged, then its reply. *)
Definition call {A : Type} (e : event) (reply : outcome A) : script A :=
  emit e >> lift reply.

(** [st.stop()] *)
Definition st_stop {A : Type} : script A := lift (Raises StopException).

(** [try: c except ...]: [handler] gives the clause that catches [e], if any. *)
Definition try_except {A : Type} (c : script A)
    (handler : exn -> option (script A)) : script A :=
  fun log =>
    match c log with
    | (log', Raises e) =>
        match handler e with
        | Some h => h log'
        | None => (log', Raises e)
        end
    | r => r
    end.

(** The truth value [if v] and [not v] test. *)
Definition truthy (v : value) : bool :=
  match v with
  | VNone => false
  | VBool b => b
  | VInt z => negb (z =? 0)
  | VFloat f => negb (PrimFloat.eqb f 0)
  | VStr s => negb (String.eqb s "")
  | VList items => match items with [] => false | _ => true end
  | VDict entries => match entries with [] => false | _ => true end
  end.

(** The code points below 256 that [str.strip] removes. *)
Definition is_space (c : ascii) : bool :=
  let n := N_of_ascii c in
  ((9 <=? n) && (n <=? 13) || (28 <=? n) && (n <=? 32) ||
   (n =? 133) || (n =? 160))%N.

(** [not s.strip()] *)
Fixpoint is_blank (s : string) : bool :=
  match s with
  | EmptyString => true
  | String c s' => is_space c && is_blank s'
  end.

Section Submission.

(** The collaborators. [request_resources lat lon] is the map-data request
    of lines 62 to 68 with [raise_for_status] and [response.json()];
    [request_route] is the routing request; [new_client] is the constructor
    [EuriaiClient(...)] and [generate_completion] the call on the client,
    given the prompt. *)
Variable request_resources : value -> value -> outcome value.
Variable request_route : point -> point -> outcome value.
Variable new_client : outcome unit.
Variable generate_completion : string -> outcome value.

(** Texts that are not modelled: [str(e)] for an exception, [str(v)] for a
    value that is not a [str], and [str(x)] for a float. *)
Variable str_of_exn : exn -> string.
Variable str_of_other : value -> string.
Variable str_of_float : float -> string.

(** The rendering of lines 253 to 305, which calls no collaborator. *)
Variable present : value -> value -> outcome unit.

Definition str_of (v : value) : string :=
  match v with
  | VStr s => s
  | _ => str_of_other v
  end.

Definition get_nearby_resources (lat lon : value) : script value :=
  try_except
    (data <~ call CallResources (request_resources lat lon) ;;
     lift (get data "elements" (VList [])))
    (fun e =>
       match e with
       | RequestException detail =>
           Some (emit (StError ("Map data error: Failed to fetch resources ("
                                ++ detail ++ ")")) >>
                 ret (VList []))
       | JSONDecodeError =>
           Some (emit (StError "Map data error: Invalid response from server") >>
                 ret (VList []))
       | _ => None
       end).

(** [except Exception]: everything but what [st.stop] raises. *)
Definition is_Exception (e : exn) : bool :=
  match e with
  | StopException => false
  | _ => true
  end.

Definition get_ai_client : script (option unit) :=
  try_except
    (client <~ call NewClient new_client ;; ret (Some client))
    (fun e =>
       if is_Exception e
       then Some (emit (StError ("AI Service Error: " ++ str_of_exn e)) >> ret None)
       else None).

Definition prompt_of (text location disaster_type : string) : string :=
  "EMERGENCY NAVIGATION PROTOCOL v2.1
**Situation**: " ++ text ++ "
**Location**: " ++ location ++ "
**Disaster Type**: " ++ disaster_type ++ "

Generate response with:
1. 3 prioritized safety actions
2. Potential route hazards
3. Local emergency contacts
4. Verification status

Format as clear text with emojis, no JSON needed".

Definition is_dict (v : value) : bool :=
  match v with
  | VDict _ => true
  | _ => false
  end.

Definition analyze_emergency (text location disaster_type : string) : script value :=
  if is_blank text
  then ret (VDict [("error", VStr "Please describe your emergency situation")]%string)
  else
    let prompt := prompt_of text location disaster_type in
    try_except
      (client <~ get_ai_client ;;
       match client with
       | None => ret (VDict [("error", VStr "AI service unavailable")]%string)
       | Some _ =>
           response <~ call CallGeneration (generate_completion prompt) ;;
           with_choices <~ lift (if is_dict response
                                 then contains_key response "choices"
                                 else Returns false) ;;
           if with_choices
           then lift (choices <- getitem response "choices" ;;
                      choice <- first choices ;;
                      getitem choice "text")
           else ret response
       end)
      (fun e =>
         if is_Exception e
         then Some (ret (VDict [("error", VStr ("Analysis error: " ++ str_of_exn e))]%string))
         else None).

(** Lines 235 to 305: the script once [get_safe_route] has returned
    [route_data]. *)
Definition with_route (emergency_desc disaster_type : string)
    (current_lat current_lon : float) (route_data : value) : script unit :=
  route_failed <~ lift (contains_key route_data "error") ;;
  if route_failed
  then
    detail <~ lift (getitem route_data "error") ;;
    emit (StError ("Routing error: " ++ str_of detail)) >> st_stop
  else
    analysis <~ analyze_emergency emergency_desc
      (str_of_float current_lat ++ "," ++ str_of_float current_lon)
      disaster_type ;;
    analysis_failed <~ lift (contains_key analysis "error") ;;
    if analysis_failed
    then
      body <~ lift (getitem analysis "error") ;;
      emit (StError (str_of body)) >> st_stop
    else
      emit StSuccess >> emit Presented >> lift (present route_data analysis).

(** Lines 213 to 233, the body of [if submitted:] up to the call of
    [get_safe_route], which sends its request first thing. *)
Definition submission (emergency_desc disaster_type : string)
    (current_lat current_lon : float) : script unit :=
  if is_blank emergency_desc
  then emit (StWarning "Please describe your emergency situation") >> st_stop
  else
    shelters <~ get_nearby_resources (VFloat current_lat) (VFloat current_lon) ;;
    if negb (truthy shelters)
    then emit (StError "No emergency shelters found in your area!") >> st_stop
    else
      best_shelter <~ lift (first shelters) ;;
      shelter_lat <~ lift (getitem best_shelter "lat") ;;
      shelter_lon <~ lift (getitem best_shelter "lon") ;;
      route_data <~ call CallRouting
        (get_safe_route request_route (VFloat current_lat, VFloat current_lon)
           (shelter_lat, shelter_lon) (lower disaster_type)) ;;
      with_route emergency_desc disaster_type current_lat current_lon route_data.

End Submission.

(** *** Sample routes *)

Definition sample_steps : list value :=
  [ annotated (VStr "Turn left") (VStr "Main Street") 1.5 (95.5 / 60) true;
    annotated (VStr "Turn left") (VStr "Oak Ave") 1.5 (95.5 / 60) false ].

Definition sample_out : value :=
  VDict [ ("distance", VInt 3000); ("duration", VFloat 191);
          ("steps", VList sample_steps);
          ("polyline", VStr "_p~iF~ps|U_ulLnnqC_mqNvxq`@") ]%string.

(** A body with a code other than ["Ok"] whose steps could not be
    annotated: the one step is a number. *)
Definition refused_route : list (string * value) :=
  [ ("code", VStr "NoRoute");
    ("routes", VList [ VDict [ ("legs", VList [ VDict [ ("steps", VList [VInt 7]) ] ]) ] ]) ]%string.

Definition volcano_steps : list value :=
  [ annotated (VStr "Turn left") (VStr "Main Street") 1.5 (95.5 / 60) false;
    annotated (VStr "Turn left") (VStr "Oak Ave") 1.5 (95.5 / 60) false ].

(** A response whose second step has no name. *)
Definition unnamed_route : value :=
  VDict [ ("code", VStr "Ok");
          ("routes", VList [ VDict
             [ ("legs", VList [ VDict
                  [ ("steps", VList
                       [ sample_step "River Road";
                         VDict [ ("maneuver", VDict [("instruction", VStr "Arrive")]);
                                 ("distance", VInt 0);
                                 ("duration", VInt 0) ] ]) ] ]);
               ("distance", VInt 1500);
               ("duration", VFloat 95.5);
               ("geometry", VStr "??") ] ]) ]%string.

(** A response whose second step lacks its maneuver. *)
Definition broken_route : value :=
  VDict [ ("code", VStr "Ok");
          ("routes", VList [ VDict
             [ ("legs", VList [ VDict
                  [ ("steps", VList
                       [ sample_step "River Road";
                         VDict [ ("name", VStr "Oak Ave");
                                 ("distance", VInt 10);
                                 ("duration", VInt 5) ];
                         sample_step "Main Street" ]) ] ]);
               ("distance", VInt 1500);
               ("duration", VFloat 95.5);
               ("geometry", VStr "??") ] ]) ]%string.

(** A lookup that finds one shelter. *)
Definition calm_resources (lat lon : value) : outcome value :=
  Returns (VDict [("elements", VList [VDict [("lat", VFloat 1); ("lon", VFloat 2)]])]%string).

(** *** Notions the claim about the submission flow is stated with *)

(** The three stages of a submission, in the order the script runs them. *)
Inductive stage : Type :=
| Lookup
| Routing
| Generation.

(** [e] is a call to the collaborator of the stage. *)
Definition calls (st : stage) (e : event) : bool :=
  match st, e with
  | Lookup, CallResources => true
  | Routing, CallRouting => true
  | Generation, NewClient => true
  | Generation, CallGeneration => true
  | _, _ => false
  end.

Definition attempted (st : stage) (log : list event) : bool :=
  existsb (calls st) log.


(** The plan was announced or drawn. *)
Definition shows_plan (log : list event) : bool :=
  existsb (fun e => match e with StSuccess | Presented => true | _ => false end) log.

(** The events a piece of script adds to the log all satisfy [allowed]. *)
Definition adds_only {A : Type} (allowed : event -> bool) (c : script A) : Prop :=
  forall log, exists added,
    fst (c log) = log ++ added /\ forallb allowed added = true.

(** The events the lookup stage can add, and those that come before the
    plan is announced. *)
Definition lookup_event (e : event) : bool :=
  match e with
  | CallResources | StError _ => true
  | _ => false
  end.


(** The calls to collaborators, in the order the script can make them. *)
Definition is_call (e : event) : bool :=
  match e with
  | CallResources | CallRouting | NewClient | CallGeneration => true
  | _ => false
  end.

Definition calls_made (log : list event) : list event := filter is_call log.

Definition every_call : list event :=
  [CallResources; CallRouting; NewClient; CallGeneration].

(** Reading a value raises nothing but exceptions that [except Exception]
    catches. *)
Definition ordinary {A : Type} (o : outcome A) : Prop :=
  forall e, o = Raises e -> is_Exception e = true.

Section Failures.

Variable request_resources : value -> value -> outcome value.
Variable request_route : point -> point -> outcome value.
Variable new_client : outcome unit.
Variable generate_completion : string -> outcome value.
Variable str_of_exn : exn -> string.
Variable str_of_float : float -> string.
Variables emergency_desc disaster_type : string.
Variables current_lat current_lon : float.


(** The lookup stage gave a first shelter with its two coordinates, and
    [get_safe_route] returned [route_data] for it; [log] is the log when the
    routing call has been made. *)
Definition routed (log : list event) (route_data : value) : Prop :=
  exists log0 shelters best_shelter shelter_lat shelter_lon,
    get_nearby_resources request_resources (VFloat current_lat) (VFloat current_lon) []
      = (log0, Returns shelters) /\
    truthy shelters = true /\
    first shelters = Returns best_shelter /\
    getitem best_shelter "lat" = Returns shelter_lat /\
    getitem best_shelter "lon" = Returns shelter_lon /\
    get_safe_route request_route (VFloat current_lat, VFloat current_lon)
      (shelter_lat, shelter_lon) (lower disaster_type) = Returns route_data /\
    log = log0 ++ [CallRouting].




End Failures.

(** ** Proofs: the decoder *)

Lemma run_Done (s : str) (fuel : nat) (o : outcome (list coordinate)) :
  run s fuel (Done o) = Done o.
Proof. induction fuel as [|fuel IH]; simpl; auto. Qed.

Ltac reduce_step := cbn -[Nat.sub Nat.mul Nat.add Nat.div skipn].

Lemma step_decreases (s : str) (c : control) (l : locals) :
  (measure s (step s (Running c l)) < measure s (Running c l))%nat.
Proof.
  destruct c as [| |pending]; unfold measure, step, len.
  - destruct s; reduce_step; lia.
  - destruct (Nat.ltb_spec (index l) (List.length s)); reduce_step; lia.
  - destruct (Nat.leb_spec (List.length s) (index l)); [reduce_step; lia|].
    destruct (nth_error s (index l)) as [ch|]; [|reduce_step; lia].
    destruct (ord ch - 63 <? 32).
    + destruct pending; [destruct (scaled (lat l) (lng l))|]; reduce_step; lia.
    + reduce_step; lia.
Qed.

Lemma run_reaches_Done (s : str) (fuel : nat) :
  forall c, (measure s c <= fuel)%nat -> exists o, run s fuel c = Done o.
Proof.
  induction fuel as [|fuel IH]; intros [c l|o] Hm.
  - destruct c; simpl in Hm; lia.
  - exists o; reflexivity.
  - cbn [run]. apply IH. pose proof (step_decreases s c l). lia.
  - exists o. apply run_Done.
Qed.

Lemma scaled_origin : scaled 0 0 = Returns origin.
Proof. reflexivity. Qed.

Lemma skipn_nth_error {A : Type} (l : list A) (n : nat) (a : A) :
  nth_error l n = Some a -> skipn n l = a :: skipn (S n) l.
Proof.
  revert n; induction l as [|x l IH]; intros [|n] H; simpl in *; try discriminate.
  - congruence.
  - apply IH in H. destruct l; simpl in *; auto.
Qed.

Lemma terminators_cons (ch : N) (s : str) :
  terminators (ch :: s) =
  if terminates_group ch then S (terminators s) else terminators s.
Proof. unfold terminators; simpl. destruct (terminates_group ch); reflexivity. Qed.

Lemma terminators_app (s t : str) :
  terminators (s ++ t) = (terminators s + terminators t)%nat.
Proof. unfold terminators. rewrite filter_app, length_app. reflexivity. Qed.

Lemma half_succ_succ (n : nat) : ((S (S n)) / 2 = S (n / 2))%nat.
Proof.
  replace (S (S n)) with (1 * 2 + n)%nat by lia.
  rewrite Nat.div_add_l by lia. reflexivity.
Qed.

Ltac settle := unfold reachable, len; reduce_step; repeat split; auto; try lia.

(** One step of a reachable configuration either returns the result the
    configuration is bound for, or moves to a reachable configuration bound
    for the same result. *)
Lemma step_destined (s : str) (c : control) (l : locals) :
  reachable s c l ->
  step s (Running c l) = Done (Returns (destined s c l)) \/
  exists c' l',
    step s (Running c l) = Running c' l' /\ reachable s c' l' /\
    destined s c' l' = destined s c l.
Proof.
  intros (Hlat & Hlng & Hidx & Hc). unfold destined, len in *.
  destruct c as [| |pending]; unfold step, len.
  - rewrite Hc. destruct s as [|ch s].
    + left. cbn. rewrite app_nil_r. reflexivity.
    + right. exists AtWhile, l. rewrite Hc. settle.
  - destruct (Nat.ltb_spec (index l) (List.length s)) as [Hlt|Hge].
    + right. eexists _, _. split; [reflexivity|]. rewrite Hlng. settle.
    + left. rewrite skipn_all2 by lia. cbn. rewrite app_nil_r. reflexivity.
  - destruct (Nat.leb_spec (List.length s) (index l)) as [Hge|Hlt].
    + left. rewrite skipn_all2 by lia.
      destruct Hc as [-> | ->]; cbn; rewrite app_nil_r; reflexivity.
    + destruct (nth_error s (index l)) as [ch|] eqn:Hch.
      2:{ apply nth_error_None in Hch. lia. }
      right. rewrite (skipn_nth_error _ _ _ Hch), terminators_cons.
      unfold terminates_group. destruct (ord ch - 63 <? 32).
      * destruct Hc as [-> | ->].
        -- rewrite Hlat, Hlng, scaled_origin. eexists _, _.
           split; [reflexivity|]. settle.
           rewrite <- app_assoc. f_equal.
           rewrite half_succ_succ. reflexivity.
        -- eexists _, _. split; [reflexivity|]. settle.
      * eexists _, _. split; [reflexivity|]. settle.
Qed.

Lemma run_destined (s : str) (fuel : nat) :
  forall c l,
    reachable s c l -> (measure s (Running c l) <= fuel)%nat ->
    run s fuel (Running c l) = Done (Returns (destined s c l)).
Proof.
  induction fuel as [|fuel IH]; intros c l Hr Hm.
  - destruct c; cbn [measure] in Hm; lia.
  - cbn [run]. pose proof (step_decreases s c l) as Hd.
    destruct (step_destined s c l Hr) as [E | (c' & l' & E & Hr' & Hd')].
    + rewrite E. apply run_Done.
    + rewrite E in *. rewrite <- Hd'. apply IH; auto. lia.
Qed.

(** The decoder returns one origin per completed pair of groups, whatever
    the groups encode: no step assigns [lat] or [lng]. *)
Lemma decode_polyline_closed_form (s : str) :
  decode_polyline s = Some (Returns (repeat origin (completed_pairs s))).
Proof.
  unfold decode_polyline, initial.
  rewrite run_destined; [reflexivity | settle | cbn [measure index]; lia].
Qed.

Lemma firstn_repeat_le {A : Type} (x : A) (k m : nat) :
  (k <= m)%nat -> firstn k (repeat x m) = repeat x k.
Proof.
  revert m; induction k as [|k IH]; intros [|m] H; simpl; try lia; auto.
  f_equal. apply IH. lia.
Qed.

Lemma completed_pairs_firstn (s : str) (n : nat) :
  (completed_pairs (firstn n s) <= completed_pairs s)%nat.
Proof.
  unfold completed_pairs. rewrite <- (firstn_skipn n s) at 2.
  rewrite terminators_app. apply Nat.Div0.div_le_mono. lia.
Qed.

Lemma last_kept {A : Type} (l : list A) (n : nat) (a : A) :
  nth_error l n = Some a -> skipn n (firstn (S n) l) = [a].
Proof.
  revert n; induction l as [|x l IH]; intros [|n] H;
    simpl in *; try discriminate.
  - injection H as ->. reflexivity.
  - apply IH. exact H.
Qed.

(** Any prefix decodes to the coordinates the whole string had appended by
    then. *)
Lemma decode_polyline_prefix (s : str) (n : nat) :
  exists cs,
    decode_polyline s = Some (Returns cs) /\
    decode_polyline (firstn n s) =
      Some (Returns (firstn (completed_pairs (firstn n s)) cs)).
Proof.
  exists (repeat origin (completed_pairs s)). split.
  - apply decode_polyline_closed_form.
  - rewrite decode_polyline_closed_form, firstn_repeat_le; auto.
    apply completed_pairs_firstn.
Qed.

(** *** The claims about the decoder *)

(** C1 (the code departs from it). On the reference string
    ["_p~iF~ps|U_ulLnnqC_mqNvxq`@"] the decoder returns three times
    [(0.0, 0.0)], none of them within 1e-5 of the expected coordinates:
    the delta of each group is added to the loop variable [coord], and
    [lat] and [lng] stay zero. Read as the specification words it, with the
    delta added to the accumulator of its axis, the same string decodes to
    the expected coordinates. *)
Theorem decode_polyline_google_example :
  decode_polyline google_example = Some (Returns [origin; origin; origin]) /\
  all_close [origin; origin; origin] google_expected = false /\
  close_to origin (385 # 10, - (1202 # 10))%Q = false /\
  (exists cs, spec_decode google_example = Returns cs /\
              all_close cs google_expected = true).
Proof.
  split; [vm_compute; reflexivity|].
  split; [vm_compute; reflexivity|].
  split; [vm_compute; reflexivity|].
  eexists. split; vm_compute; reflexivity.
Qed.

(** C9. [decode_polyline("")] returns the empty list of coordinates, and
    raises nothing. *)
Theorem decode_polyline_empty :
  decode_polyline (str_of_string "") = Some (Returns []).
Proof. reflexivity. Qed.

(** Cut a string after a character that does not end its group (the cut
    falls inside a 5-bit group): the decoder raises nothing and returns as
    many coordinates as pairs were completed before the cut, the first ones
    of the whole string's decoding. What the coordinates are is another
    matter: see [decode_polyline_cut_example]. *)
Theorem decode_polyline_truncated (s : str) (n : nat) (ch : N) :
  nth_error s n = Some ch ->
  terminates_group ch = false ->
  exists cs,
    decode_polyline s = Some (Returns cs) /\
    decode_polyline (firstn (S n) s) =
      Some (Returns (firstn (completed_pairs (firstn (S n) s)) cs)) /\
    List.length (firstn (completed_pairs (firstn (S n) s)) cs) =
      completed_pairs (firstn n s).
Proof.
  intros Hch Hcont.
  destruct (decode_polyline_prefix s (S n)) as (cs & Hs & Hcut).
  exists cs. repeat split; auto.
  rewrite decode_polyline_closed_form in Hs. injection Hs as <-.
  rewrite firstn_repeat_le by apply completed_pairs_firstn.
  rewrite repeat_length. unfold completed_pairs. f_equal.
  rewrite <- (firstn_skipn n (firstn (S n) s)) at 1.
  rewrite firstn_firstn, Nat.min_l by lia.
  rewrite terminators_app.
  rewrite (last_kept _ _ _ Hch), terminators_cons, Hcont. cbn. lia.
Qed.

Lemma decode_polyline_truncated_witness :
  exists cs,
    decode_polyline google_example = Some (Returns cs) /\
    decode_polyline (firstn 12 google_example) =
      Some (Returns (firstn (completed_pairs (firstn 12 google_example)) cs)) /\
    List.length (firstn (completed_pairs (firstn 12 google_example)) cs) =
      completed_pairs (firstn 11 google_example).
Proof.
  apply (decode_polyline_truncated google_example 11 117%N); reflexivity.
Defined.

(** C6 (the code departs from it). The reference string cut inside its
    third group has one pair fully decoded before the cut, [(38.5, -120.2)].
    The decoder raises nothing and returns one coordinate, but that
    coordinate is [(0.0, 0.0)], not within 1e-5 of the decoded pair: the
    deltas were added to the loop variable [coord], as on the whole string.
    Read as the specification words it, the cut string decodes to the one
    pair [(38.5, -120.2)]. *)
Theorem decode_polyline_cut_example :
  nth_error google_example 11 = Some 117%N /\
  terminates_group 117%N = false /\
  decode_polyline cut_example = Some (Returns [origin]) /\
  all_close [origin] [(385 # 10, - (1202 # 10))%Q] = false /\
  (exists cs, spec_decode cut_example = Returns cs /\
              all_close cs [(385 # 10, - (1202 # 10))%Q] = true).
Proof.
  split; [reflexivity|]. split; [reflexivity|].
  split; [vm_compute; reflexivity|].
  split; [vm_compute; reflexivity|].
  eexists. split; vm_compute; reflexivity.
Qed.

(** C10. The decoder terminates on every string: within [2 * len + 3] loop
    tests it has returned or raised; and every pass of the inner loop either
    ends the call or moves the cursor one character on, never past the end
    of the string. *)
Theorem decode_polyline_terminates (s : str) :
  (exists o, decode_polyline s = Some o) /\
  (forall c l,
     (measure s (step s (Running c l)) < measure s (Running c l))%nat) /\
  (forall pending l,
     (exists o, step s (Running (AtGroup pending) l) = Done o) \/
     (exists c' l',
        step s (Running (AtGroup pending) l) = Running c' l' /\
        index l' = S (index l) /\ (index l' <= len s)%nat)).
Proof.
  split; [|split].
  - unfold decode_polyline.
    destruct (run_reaches_Done s (2 * len s + 3) initial) as [o E].
    + cbn [measure initial index]. lia.
    + rewrite E. eauto.
  - apply step_decreases.
  - intros pending l. unfold step, len.
    destruct (Nat.leb_spec (List.length s) (index l)) as [Hge|Hlt]; [eauto|].
    destruct (nth_error s (index l)) as [ch|]; [|eauto].
    destruct (ord ch - 63 <? 32).
    + destruct pending; [destruct (scaled (lat l) (lng l))|]; eauto 8.
    + eauto 8.
Qed.

(** ** Proofs: route assembly *)

Lemma bind_Returns {A B : Type} (o : outcome A) (k : A -> outcome B) (b : B) :
  bind o k = Returns b -> exists a, o = Returns a /\ k a = Returns b.
Proof. destruct o as [a|e]; simpl; [eauto | discriminate]. Qed.

Ltac bind_inv H :=
  repeat
    (let a := fresh "x" in
     let E := fresh "E" in
     apply bind_Returns in H; destruct H as (a & E & H)).

Lemma route_step_Returns (disaster_type : string) (step st : value) :
  route_step disaster_type step = Returns st ->
  exists road_name instruction distance duration km minutes,
    get step "name" (VStr "Unnamed Road") = Returns road_name /\
    getitem step "distance" = Returns distance /\
    truediv distance 1000 = Returns km /\
    getitem step "duration" = Returns duration /\
    truediv duration 60 = Returns minutes /\
    st = annotated instruction road_name km minutes
           (blockage_of disaster_type road_name).
Proof.
  unfold route_step. intros H. bind_inv H. injection H as <-.
  eexists _, _, _, _, _, _. repeat split; eauto.
Qed.

Lemma for_steps_Returns (disaster_type : string) (steps : list value) :
  forall route_steps out,
    for_steps disaster_type steps route_steps = Returns out ->
    exists added,
      out = route_steps ++ added /\
      Forall2 (fun step st => route_step disaster_type step = Returns st)
        steps added.
Proof.
  induction steps as [|step rest IH]; intros route_steps out H; simpl in H.
  - injection H as <-. exists []. rewrite app_nil_r. auto.
  - bind_inv H. apply IH in H. destruct H as (added & -> & HF).
    exists (x :: added). rewrite <- app_assoc. split; [reflexivity|].
    constructor; assumption.
Qed.

(** What [get_safe_route] can return: one of its three error dicts, or the
    route dict whose steps are the annotations of the raw steps, in order. *)
Lemma get_safe_route_Returns (request_route : point -> point -> outcome value)
    (start_coord end_coord : point) (disaster_type : string) (out : value) :
  get_safe_route request_route start_coord end_coord disaster_type = Returns out ->
  (exists message, out = VDict [("error", VStr message)]%string) \/
  (exists route_data raw route_steps distance duration polyline,
     request_route start_coord end_coord = Returns route_data /\
     raw_steps route_data = Returns raw /\
     Forall2 (fun step st => route_step disaster_type step = Returns st)
       raw route_steps /\
     out = VDict [ ("distance", distance); ("duration", duration);
                   ("steps", VList route_steps); ("polyline", polyline) ]%string).
Proof.
  unfold get_safe_route. intros H.
  destruct (request_route start_coord end_coord) as [route_data|e] eqn:Hreq.
  - cbn [bind] in H.
    destruct (assemble route_data disaster_type) as [v|e] eqn:Ha.
    + cbn [handled] in H. injection H as <-.
      unfold assemble in Ha. bind_inv Ha.
      destruct (negb (is_Ok x)).
      * injection Ha as <-. left. eauto.
      * bind_inv Ha. injection Ha as <-. right.
        apply for_steps_Returns in E1. destruct E1 as (added & -> & HF).
        eexists _, _, _, _, _, _. repeat split; eauto.
    + destruct e; cbn [handled] in H; try discriminate;
        injection H as <-; left; eauto.
  - cbn [bind] in H.
    destruct e; cbn [handled] in H; try discriminate;
      injection H as <-; left; eauto.
Qed.

(** The steps of a returned route, when it has any. *)
Lemma get_safe_route_steps (request_route : point -> point -> outcome value)
    (start_coord end_coord : point) (disaster_type : string)
    (out : value) (steps : list value) :
  get_safe_route request_route start_coord end_coord disaster_type = Returns out ->
  getitem out "steps" = Returns (VList steps) ->
  exists route_data raw,
    request_route start_coord end_coord = Returns route_data /\
    raw_steps route_data = Returns raw /\
    Forall2 (fun step st => route_step disaster_type step = Returns st) raw steps.
Proof.
  intros H Hs. apply get_safe_route_Returns in H.
  destruct H as [(message & ->) | (rd & raw & rs & di & du & po & Hr & Hraw & HF & ->)].
  - discriminate.
  - cbn in Hs. injection Hs as <-. eauto.
Qed.

Lemma Forall2_In_r {A B : Type} (R : A -> B -> Prop) (l : list A) (l' : list B) (b : B) :
  Forall2 R l l' -> In b l' -> exists a, In a l /\ R a b.
Proof.
  induction 1 as [|a b' l l' Hab HF IH]; intros Hin; simpl in Hin.
  - contradiction.
  - destruct Hin as [<- | Hin].
    + exists a. simpl. auto.
    + destruct (IH Hin) as (a' & Ha' & HR). exists a'. simpl. auto.
Qed.

(** *** The claims about the route *)




(** The two derived entries of an annotated step. *)
Lemma route_step_flags (disaster_type : string) (step st : value) :
  route_step disaster_type step = Returns st ->
  exists road_name,
    get step "name" (VStr "Unnamed Road") = Returns road_name /\
    getitem st "blocked" = Returns (VBool (blockage_of disaster_type road_name)) /\
    getitem st "alternative" =
      Returns (if blockage_of disaster_type road_name
               then VStr "Use Service Lane" else VNone).
Proof.
  intros H. apply route_step_Returns in H.
  destruct H as (rn & ins & di & du & km & mi & Hrn & _ & _ & _ & _ & ->).
  exists rn. repeat split; auto.
Qed.

(** C3. In every step of a returned route, [alternative] is not [None] if
    and only if [blocked] is [True], and when it is not [None] it is the
    string ["Use Service Lane"]. *)
Theorem alternative_iff_blocked
    (request_route : point -> point -> outcome value)
    (start_coord end_coord : point) (disaster_type : string)
    (out : value) (steps : list value) (st : value) :
  get_safe_route request_route start_coord end_coord disaster_type = Returns out ->
  getitem out "steps" = Returns (VList steps) ->
  In st steps ->
  exists blocked alternative,
    getitem st "blocked" = Returns (VBool blocked) /\
    getitem st "alternative" = Returns alternative /\
    (alternative <> VNone <-> blocked = true) /\
    (alternative <> VNone -> alternative = VStr "Use Service Lane").
Proof.
  intros H Hs Hin.
  destruct (get_safe_route_steps _ _ _ _ _ _ H Hs) as (rd & raw & _ & _ & HF).
  destruct (Forall2_In_r _ _ _ _ HF Hin) as (step & _ & Hst).
  destruct (route_step_flags _ _ _ Hst) as (rn & _ & Hb & Ha).
  eexists _, _. split; [exact Hb|]. split; [exact Ha|].
  destruct (blockage_of disaster_type rn); split.
  - split; [reflexivity | discriminate].
  - reflexivity.
  - split; [intros Hne; now contradiction Hne | discriminate].
  - intros Hne. now contradiction Hne.
Qed.

Lemma alternative_iff_blocked_witness :
  exists blocked alternative,
    getitem (annotated (VStr "Turn left") (VStr "Main Street") 1.5 (95.5 / 60) true)
      "blocked" = Returns (VBool blocked) /\
    getitem (annotated (VStr "Turn left") (VStr "Main Street") 1.5 (95.5 / 60) true)
      "alternative" = Returns alternative /\
    (alternative <> VNone <-> blocked = true) /\
    (alternative <> VNone -> alternative = VStr "Use Service Lane").
Proof.
  apply (alternative_iff_blocked (fun _ _ => Returns (sample_route "Ok"))
           here there "Flood" sample_out sample_steps).
  - vm_compute. reflexivity.
  - reflexivity.
  - simpl. auto.
Defined.



(** The same body under the code ["Ok"] does reach the loop, which raises
    on the number it finds where a step should be. *)
Lemma refused_route_would_raise :
  get_safe_route
    (fun _ _ => Returns (VDict (("code", VStr "Ok") :: refused_route)%string))
    here there "Flood" = Raises AttributeError.
Proof. reflexivity. Qed.

Lemma route_step_lower (d1 d2 : string) (step : value) :
  lower d1 = lower d2 -> route_step d1 step = route_step d2 step.
Proof. intros E. unfold route_step. rewrite E. reflexivity. Qed.

Lemma for_steps_lower (d1 d2 : string) (steps : list value) :
  lower d1 = lower d2 ->
  forall route_steps, for_steps d1 steps route_steps = for_steps d2 steps route_steps.
Proof.
  intros E. induction steps as [|step rest IH]; intros route_steps; simpl.
  - reflexivity.
  - rewrite (route_step_lower d1 d2 step E).
    destruct (route_step d2 step); simpl; auto.
Qed.

(** C7. Two disaster types that differ by case only give the same route:
    the same steps, with the same blocked flags and alternatives. *)
Theorem case_insensitive_blockages
    (request_route : point -> point -> outcome value)
    (start_coord end_coord : point) (d1 d2 : string) :
  lower d1 = lower d2 ->
  get_safe_route request_route start_coord end_coord d1 =
  get_safe_route request_route start_coord end_coord d2.
Proof.
  intros E. unfold get_safe_route. f_equal.
  destruct (request_route start_coord end_coord) as [route_data|e]; cbn [bind];
    [|reflexivity].
  unfold assemble.
  destruct (get route_data "code" VNone) as [code|e]; cbn [bind]; [|reflexivity].
  destruct (negb (is_Ok code)); [reflexivity|].
  destruct (raw_steps route_data) as [steps|e]; cbn [bind]; [|reflexivity].
  rewrite (for_steps_lower d1 d2 steps E). reflexivity.
Qed.

Lemma case_insensitive_blockages_witness :
  get_safe_route (fun _ _ => Returns (sample_route "Ok")) here there "FLOOD" =
  get_safe_route (fun _ _ => Returns (sample_route "Ok")) here there "flood".
Proof.
  apply (case_insensitive_blockages (fun _ _ => Returns (sample_route "Ok"))
           here there "FLOOD" "flood").
  reflexivity.
Defined.

Lemma table_get_unrecognized (disaster_type : string) :
  unrecognized disaster_type ->
  table_get (lower disaster_type) simulated_blockages [] = [].
Proof.
  intros (Hflood & Hfire & Hquake). unfold simulated_blockages, table_get.
  destruct (String.eqb_spec (lower disaster_type) "flood"); [contradiction|].
  destruct (String.eqb_spec (lower disaster_type) "fire"); [contradiction|].
  destruct (String.eqb_spec (lower disaster_type) "earthquake"); [contradiction|].
  reflexivity.
Qed.

Lemma blockage_of_unrecognized (disaster_type : string) (road_name : value) :
  unrecognized disaster_type -> blockage_of disaster_type road_name = false.
Proof.
  intros H. unfold blockage_of. rewrite (table_get_unrecognized _ H).
  destruct road_name; reflexivity.
Qed.

(** C8. With a disaster type that is no case variant of [flood], [fire] or
    [earthquake], no step of a returned route is blocked. *)
Theorem unrecognized_blocks_nothing
    (request_route : point -> point -> outcome value)
    (start_coord end_coord : point) (disaster_type : string)
    (out : value) (steps : list value) (st : value) :
  unrecognized disaster_type ->
  get_safe_route request_route start_coord end_coord disaster_type = Returns out ->
  getitem out "steps" = Returns (VList steps) ->
  In st steps ->
  getitem st "blocked" = Returns (VBool false) /\
  getitem st "alternative" = Returns VNone.
Proof.
  intros Hu H Hs Hin.
  destruct (get_safe_route_steps _ _ _ _ _ _ H Hs) as (rd & raw & _ & _ & HF).
  destruct (Forall2_In_r _ _ _ _ HF Hin) as (step & _ & Hst).
  destruct (route_step_flags _ _ _ Hst) as (rn & _ & Hb & Ha).
  rewrite (blockage_of_unrecognized _ rn Hu) in Hb, Ha. auto.
Qed.

Lemma unrecognized_blocks_nothing_witness :
  getitem (annotated (VStr "Turn left") (VStr "Main Street") 1.5 (95.5 / 60) false)
    "blocked" = Returns (VBool false) /\
  getitem (annotated (VStr "Turn left") (VStr "Main Street") 1.5 (95.5 / 60) false)
    "alternative" = Returns VNone.
Proof.
  apply (unrecognized_blocks_nothing (fun _ _ => Returns (sample_route "Ok"))
           here there "Volcano"
           (VDict [ ("distance", VInt 3000); ("duration", VFloat 191);
                    ("steps", VList volcano_steps);
                    ("polyline", VStr "_p~iF~ps|U_ulLnnqC_mqNvxq`@") ]%string)
           volcano_steps).
  - repeat split; discriminate.
  - vm_compute. reflexivity.
  - reflexivity.
  - simpl. auto.
Defined.

(** ** Proofs: the submission flow *)

Section AddsOnly.

Variable allowed : event -> bool.

Lemma adds_only_lift {A : Type} (o : outcome A) : adds_only allowed (lift o).
Proof. intros log. exists []. cbn. rewrite app_nil_r. auto. Qed.

Lemma adds_only_ret {A : Type} (a : A) : adds_only allowed (ret a).
Proof. intros log. exists []. cbn. rewrite app_nil_r. auto. Qed.

Lemma adds_only_emit (e : event) :
  allowed e = true -> adds_only allowed (emit e).
Proof. intros H log. exists [e]. cbn. rewrite H. auto. Qed.

Lemma adds_only_seq {A B : Type} (c : script A) (k : A -> script B) :
  adds_only allowed c -> (forall a, adds_only allowed (k a)) ->
  adds_only allowed (seq c k).
Proof.
  intros Hc Hk log. unfold seq.
  destruct (Hc log) as (added & E & Hall).
  destruct (c log) as [log' [a|e]]; cbn in E; subst log'.
  - destruct (Hk a (log ++ added)) as (added' & E' & Hall').
    exists (added ++ added'). rewrite E', app_assoc, forallb_app, Hall, Hall'. auto.
  - exists added. auto.
Qed.

Lemma adds_only_try_except {A : Type} (c : script A)
    (handler : exn -> option (script A)) :
  adds_only allowed c ->
  (forall e h, handler e = Some h -> adds_only allowed h) ->
  adds_only allowed (try_except c handler).
Proof.
  intros Hc Hh log. unfold try_except.
  destruct (Hc log) as (added & E & Hall).
  destruct (c log) as [log' [a|e]]; cbn in E; subst log'.
  - exists added. auto.
  - destruct (handler e) as [h|] eqn:He.
    + destruct (Hh e h He (log ++ added)) as (added' & E' & Hall').
      exists (added ++ added'). rewrite E', app_assoc, forallb_app, Hall, Hall'. auto.
    + exists added. auto.
Qed.

Lemma adds_only_call {A : Type} (e : event) (reply : outcome A) :
  allowed e = true -> adds_only allowed (call e reply).
Proof.
  intros H. unfold call. apply adds_only_seq.
  - apply adds_only_emit, H.
  - intros _. apply adds_only_lift.
Qed.

(** From the empty log, the log is what was added. *)
Lemma adds_only_from_nil {A : Type} (c : script A) (log : list event)
    (o : outcome A) :
  adds_only allowed c -> c [] = (log, o) -> forallb allowed log = true.
Proof.
  intros Hc E. destruct (Hc []) as (added & E' & Hall).
  rewrite E in E'. cbn in E'. subst. exact Hall.
Qed.


End AddsOnly.

Lemma none_among (allowed p : event -> bool) (log : list event) :
  (forall e, allowed e = true -> p e = false) ->
  forallb allowed log = true -> existsb p log = false.
Proof.
  intros H. induction log as [|e log IH]; cbn; [reflexivity|].
  intros Hall. apply andb_prop in Hall. destruct Hall as [He Hl].
  rewrite (H e He), (IH Hl). reflexivity.
Qed.

Lemma get_nearby_resources_adds
    (request_resources : value -> value -> outcome value) (lat lon : value) :
  adds_only lookup_event (get_nearby_resources request_resources lat lon).
Proof.
  unfold get_nearby_resources. apply adds_only_try_except.
  - apply adds_only_seq; [apply adds_only_call; reflexivity|].
    intros data. apply adds_only_lift.
  - intros e h He. destruct e; try discriminate; injection He as <-;
      (apply adds_only_seq;
       [apply adds_only_emit; reflexivity | intros _; apply adds_only_ret]).
Qed.


Lemma seq_Returns {A B : Type} (c : script A) (k : A -> script B)
    (log log' : list event) (a : A) :
  c log = (log', Returns a) -> seq c k log = k a log'.
Proof. intros E. unfold seq. rewrite E. reflexivity. Qed.

Lemma attempted_app (st : stage) (log log' : list event) :
  attempted st (log ++ log') = attempted st log || attempted st log'.
Proof. apply existsb_app. Qed.

Lemma shows_plan_app (log log' : list event) :
  shows_plan (log ++ log') = shows_plan log || shows_plan log'.
Proof. apply existsb_app. Qed.

(** After the lookup stage, nothing of the later stages has happened. *)
Lemma after_lookup (request_resources : value -> value -> outcome value)
    (lat lon : value) (log : list event) (o : outcome value) :
  get_nearby_resources request_resources lat lon [] = (log, o) ->
  attempted Routing log = false /\ attempted Generation log = false /\
  shows_plan log = false.
Proof.
  intros E.
  pose proof (adds_only_from_nil _ _ _ _
                (get_nearby_resources_adds request_resources lat lon) E) as H.
  repeat split; apply (none_among lookup_event); auto;
    intros [] He; try discriminate; reflexivity.
Qed.




Section FailFast.

Variable request_resources : value -> value -> outcome value.
Variable request_route : point -> point -> outcome value.
Variable new_client : outcome unit.
Variable generate_completion : string -> outcome value.
Variable str_of_exn : exn -> string.
Variable str_of_other : value -> string.
Variable str_of_float : float -> string.
Variable present : value -> value -> outcome unit.
Variables emergency_desc disaster_type : string.
Variables current_lat current_lon : float.

Local Abbreviation submitted :=
  (submission request_resources request_route new_client generate_completion
     str_of_exn str_of_other str_of_float present
     emergency_desc disaster_type current_lat current_lon).

(** The script up to the routing call, when the lookup gave a shelter. *)
Lemma submission_routed (log : list event) (route_data : value) :
  is_blank emergency_desc = false ->
  routed request_resources request_route disaster_type current_lat current_lon
    log route_data ->
  submitted [] =
    with_route new_client generate_completion str_of_exn str_of_other
      str_of_float present emergency_desc disaster_type current_lat current_lon
      route_data log /\
  attempted Generation log = false /\ shows_plan log = false.
Proof.
  intros Hb (log0 & shelters & best & la & lo & Hg & Ht & Hbest & Hla & Hlo & Hr & ->).
  split.
  - unfold submission. rewrite Hb.
    rewrite (seq_Returns _ _ _ _ _ Hg), Ht. cbn [negb].
    rewrite (seq_Returns (lift (first shelters)) _ log0 log0 best)
      by (unfold lift; rewrite Hbest; reflexivity).
    rewrite (seq_Returns (lift (getitem best "lat")) _ log0 log0 la)
      by (unfold lift; rewrite Hla; reflexivity).
    rewrite (seq_Returns (lift (getitem best "lon")) _ log0 log0 lo)
      by (unfold lift; rewrite Hlo; reflexivity).
    rewrite (seq_Returns (call CallRouting _) _ log0 (log0 ++ [CallRouting]) route_data)
      by (unfold call, seq, emit, lift; rewrite Hr; reflexivity).
    reflexivity.
  - destruct (after_lookup _ _ _ _ _ Hg) as (_ & Hgen & Hplan).
    rewrite attempted_app, shows_plan_app, Hgen, Hplan. split; reflexivity.
Qed.


End FailFast.


(** ** Further properties: the decoder *)

Lemma Forall_repeat {A : Type} (P : A -> Prop) (x : A) (n : nat) :
  P x -> Forall P (repeat x n).
Proof. intros H. induction n; simpl; constructor; auto. Qed.

(** X1. On every string the decoder returns, and does not raise: one
    coordinate per completed pair of groups, each of them [(0.0, 0.0)]. *)
Theorem decode_polyline_only_origins (s : str) :
  exists cs,
    decode_polyline s = Some (Returns cs) /\
    List.length cs = completed_pairs s /\
    Forall (fun c => c = (0%float, 0%float)) cs.
Proof.
  exists (repeat origin (completed_pairs s)). split; [|split].
  - apply decode_polyline_closed_form.
  - apply repeat_length.
  - apply Forall_repeat. reflexivity.
Qed.

(** X2. Appending characters to a string only appends coordinates to its
    decoding. *)
Theorem decode_polyline_extends (s t : str) :
  exists cs more,
    decode_polyline s = Some (Returns cs) /\
    decode_polyline (s ++ t) = Some (Returns (cs ++ more)).
Proof.
  exists (repeat origin (completed_pairs s)).
  exists (repeat origin (completed_pairs (s ++ t) - completed_pairs s)).
  split; [apply decode_polyline_closed_form|].
  rewrite decode_polyline_closed_form, <- repeat_app. do 3 f_equal.
  assert (completed_pairs s <= completed_pairs (s ++ t))%nat; [|lia].
  unfold completed_pairs. rewrite terminators_app.
  apply Nat.Div0.div_le_mono. lia.
Qed.

(** X3. The sign rule of line 140: an even [result] [2k] gives the delta
    [k], an odd [result] [2k + 1] gives the delta [-(k + 1)]. *)
Theorem delta_even_odd (k : Z) :
  delta (2 * k) = k /\ delta (2 * k + 1) = - (k + 1).
Proof.
  unfold delta.
  assert (Hland : forall a, Z.land a 1 = a mod 2).
  { intros a. change 1 with (Z.ones 1). rewrite Z.land_ones by lia. reflexivity. }
  rewrite !Hland, !Z.shiftr_div_pow2 by lia. change (2 ^ 1) with 2. split.
  - replace ((2 * k) mod 2) with 0 by (symmetry; apply Z.mod_divide; [lia|]; exists k; lia).
    cbn [Z.eqb]. rewrite Z.mul_comm, Z.div_mul by lia. reflexivity.
  - replace ((2 * k + 1) mod 2) with 1.
    2:{ rewrite Z.add_comm, Z.mul_comm, Z.mod_add by lia. reflexivity. }
    cbn [Z.eqb].
    replace ((2 * k + 1) / 2) with k.
    2:{ rewrite Z.add_comm, Z.mul_comm, Z.div_add by lia. reflexivity. }
    unfold Z.lnot. lia.
Qed.

(** ** Further properties: route assembly *)

(** What a returned route holds, with where each entry was read. *)
Lemma get_safe_route_route (request_route : point -> point -> outcome value)
    (start_coord end_coord : point) (disaster_type : string)
    (out : value) (steps : list value) :
  get_safe_route request_route start_coord end_coord disaster_type = Returns out ->
  getitem out "steps" = Returns (VList steps) ->
  exists route_data route raw distance duration polyline,
    request_route start_coord end_coord = Returns route_data /\
    get route_data "code" VNone = Returns (VStr "Ok") /\
    first_route route_data = Returns route /\
    raw_steps route_data = Returns raw /\
    for_steps disaster_type raw [] = Returns steps /\
    getitem route "distance" = Returns distance /\
    getitem route "duration" = Returns duration /\
    getitem route "geometry" = Returns polyline /\
    out = VDict [ ("distance", distance); ("duration", duration);
                  ("steps", VList steps); ("polyline", polyline) ]%string.
Proof.
  unfold get_safe_route. intros H Hs.
  destruct (request_route start_coord end_coord) as [route_data|e] eqn:Hreq;
    cbn [bind] in H.
  2:{ destruct e; cbn [handled] in H; try discriminate;
        injection H as <-; discriminate. }
  destruct (assemble route_data disaster_type) as [v|e] eqn:Ha.
  2:{ destruct e; cbn [handled] in H; try discriminate;
        injection H as <-; discriminate. }
  cbn [handled] in H. injection H as <-.
  unfold assemble in Ha. apply bind_Returns in Ha. destruct Ha as (code & Hcode & Ha).
  destruct (is_Ok code) eqn:Hok; cbn [negb] in Ha.
  2:{ injection Ha as <-. discriminate. }
  assert (code = VStr "Ok") as ->.
  { destruct code; try discriminate. cbn in Hok.
    apply String.eqb_eq in Hok. subst. reflexivity. }
  bind_inv Ha. injection Ha as <-.
  cbn in Hs. injection Hs as <-.
  rewrite E1 in E3, E5. injection E3 as <-. injection E5 as <-.
  eexists _, _, _, _, _, _. repeat split; eauto.
Qed.

(** X4. [get_safe_route] lets no [KeyError] and no [RequestException]
    through, wherever in the [try] block they are raised: a
    [RequestException] becomes the dict of the error
    ["Routing service error: "] with its text, a [KeyError] the dict of
    the error ["Invalid route data format"]. *)
Theorem get_safe_route_catches
    (request_route : point -> point -> outcome value)
    (start_coord end_coord : point) (disaster_type : string) :
  get_safe_route request_route start_coord end_coord disaster_type
    <> Raises KeyError /\
  (forall detail,
     get_safe_route request_route start_coord end_coord disaster_type
       <> Raises (RequestException detail)) /\
  (forall detail,
     (route_data <- request_route start_coord end_coord ;;
      assemble route_data disaster_type) = Raises (RequestException detail) ->
     get_safe_route request_route start_coord end_coord disaster_type
       = Returns (VDict [("error",
                          VStr ("Routing service error: " ++ detail))]%string)) /\
  ((route_data <- request_route start_coord end_coord ;;
    assemble route_data disaster_type) = Raises KeyError ->
   get_safe_route request_route start_coord end_coord disaster_type
     = Returns (VDict [("error", VStr "Invalid route data format")]%string)).
Proof.
  unfold get_safe_route.
  destruct (route_data <- request_route start_coord end_coord ;;
            assemble route_data disaster_type) as [v|e].
  - repeat split; try intros detail; discriminate.
  - repeat split.
    + destruct e; cbn [handled]; discriminate.
    + intros detail. destruct e; cbn [handled]; discriminate.
    + intros detail E. injection E as ->. reflexivity.
    + intros E. injection E as ->. reflexivity.
Qed.

(** A transport failure, and a response whose second step lacks its
    maneuver: each gives its error dict. *)
Lemma get_safe_route_catches_witness :
  get_safe_route (fun _ _ => Raises (RequestException "timed out")) here there "Fire"
    = Returns (VDict [("error",
                       VStr ("Routing service error: " ++ "timed out"))]%string) /\
  get_safe_route (fun _ _ => Returns broken_route) here there "Fire"
    = Returns (VDict [("error", VStr "Invalid route data format")]%string).
Proof.
  split.
  - apply (proj1 (proj2 (proj2
             (get_safe_route_catches
                (fun _ _ => Raises (RequestException "timed out"))
                here there "Fire"))) "timed out"%string).
    reflexivity.
  - apply (proj2 (proj2 (proj2
             (get_safe_route_catches (fun _ _ => Returns broken_route)
                here there "Fire")))).
    reflexivity.
Defined.

(** X5. Whatever [get_safe_route] returns is a dict that has either the
    key [error], with a text, and no steps, or a list of steps and no key
    [error]: the test ['error' in route_data] of line 235 cannot raise and
    tells the two apart. *)
Theorem get_safe_route_error_or_steps
    (request_route : point -> point -> outcome value)
    (start_coord end_coord : point) (disaster_type : string) (out : value) :
  get_safe_route request_route start_coord end_coord disaster_type = Returns out ->
  exists entries,
    out = VDict entries /\
    ((exists message, lookup "error" entries = Some (VStr message)) /\
     lookup "steps" entries = None /\
     contains_key out "error" = Returns true
     \/
     (exists steps, lookup "steps" entries = Some (VList steps)) /\
     lookup "error" entries = None /\
     contains_key out "error" = Returns false).
Proof.
  intros H. apply get_safe_route_Returns in H.
  destruct H as [(message & ->) | (rd & raw & rs & di & du & po & _ & _ & _ & ->)];
    eexists; (split; [reflexivity|]).
  - left. cbn. eauto.
  - right. cbn. eauto.
Qed.

Lemma get_safe_route_error_or_steps_witness :
  exists entries,
    VDict [("error", VStr "No route found")]%string = VDict entries /\
    ((exists message, lookup "error" entries = Some (VStr message)) /\
     lookup "steps" entries = None /\
     contains_key (VDict [("error", VStr "No route found")]%string) "error"
       = Returns true
     \/
     (exists steps, lookup "steps" entries = Some (VList steps)) /\
     lookup "error" entries = None /\
     contains_key (VDict [("error", VStr "No route found")]%string) "error"
       = Returns false).
Proof.
  apply (get_safe_route_error_or_steps
           (fun _ _ => Returns (sample_route "NoRoute")) here there "Flood").
  reflexivity.
Defined.

(** X6. A returned route carries the totals and the geometry of the first
    route of the response as they came: [distance], [duration] and
    [polyline] are [routes[0]]'s [distance], [duration] and [geometry]. *)
Theorem route_totals_pass_through
    (request_route : point -> point -> outcome value)
    (start_coord end_coord : point) (disaster_type : string)
    (out : value) (steps : list value) :
  get_safe_route request_route start_coord end_coord disaster_type = Returns out ->
  getitem out "steps" = Returns (VList steps) ->
  exists route_data route,
    request_route start_coord end_coord = Returns route_data /\
    first_route route_data = Returns route /\
    getitem out "distance" = getitem route "distance" /\
    getitem out "duration" = getitem route "duration" /\
    getitem out "polyline" = getitem route "geometry".
Proof.
  intros H Hs.
  destruct (get_safe_route_route _ _ _ _ _ _ H Hs)
    as (rd & route & raw & di & du & po & Hr & _ & Hroute & _ & _ & Hdi & Hdu & Hpo & ->).
  exists rd, route. rewrite Hdi, Hdu, Hpo. repeat split; auto.
Qed.

Lemma route_totals_pass_through_witness :
  exists route_data route,
    Returns (sample_route "Ok") = Returns route_data /\
    first_route route_data = Returns route /\
    getitem sample_out "distance" = getitem route "distance" /\
    getitem sample_out "duration" = getitem route "duration" /\
    getitem sample_out "polyline" = getitem route "geometry".
Proof.
  apply (route_totals_pass_through (fun _ _ => Returns (sample_route "Ok"))
           here there "Flood" sample_out sample_steps).
  - vm_compute. reflexivity.
  - reflexivity.
Defined.

Lemma route_step_fields (disaster_type : string) (step st : value) :
  route_step disaster_type step = Returns st ->
  exists maneuver,
    getitem step "maneuver" = Returns maneuver /\
    getitem st "instruction" = getitem maneuver "instruction" /\
    getitem st "road" = get step "name" (VStr "Unnamed Road") /\
    exists road_name,
      getitem st "road" = Returns road_name /\
      getitem st "blocked" = Returns (VBool (blockage_of disaster_type road_name)).
Proof.
  unfold route_step. intros H. bind_inv H. injection H as <-.
  exists x0. rewrite E, E1. repeat split; auto. exists x. split; reflexivity.
Qed.

(** X7. The steps of a returned route are the steps of the first leg of the
    first route, one for one and in their order; each keeps the instruction
    of its maneuver, and its road is the name of the raw step, or
    ["Unnamed Road"] when the raw step has no name. *)
Theorem route_steps_follow_raw_steps
    (request_route : point -> point -> outcome value)
    (start_coord end_coord : point) (disaster_type : string)
    (out : value) (steps : list value) :
  get_safe_route request_route start_coord end_coord disaster_type = Returns out ->
  getitem out "steps" = Returns (VList steps) ->
  exists route_data raw,
    request_route start_coord end_coord = Returns route_data /\
    raw_steps route_data = Returns raw /\
    List.length steps = List.length raw /\
    Forall2
      (fun step st =>
         getitem st "road" = get step "name" (VStr "Unnamed Road") /\
         exists maneuver,
           getitem step "maneuver" = Returns maneuver /\
           getitem st "instruction" = getitem maneuver "instruction")
      raw steps.
Proof.
  intros H Hs.
  destruct (get_safe_route_steps _ _ _ _ _ _ H Hs) as (rd & raw & Hr & Hraw & HF).
  exists rd, raw. repeat split; auto.
  - symmetry. eapply Forall2_length, HF.
  - clear - HF. induction HF as [|step st raw steps Hst HF IH]; constructor; auto.
    destruct (route_step_fields _ _ _ Hst) as (m & Hm & Hi & Hroad & _).
    split; [exact Hroad|]. exists m. auto.
Qed.

Lemma route_steps_follow_raw_steps_witness :
  exists route_data raw,
    Returns unnamed_route = Returns route_data /\
    raw_steps route_data = Returns raw /\
    List.length
      [ annotated (VStr "Turn left") (VStr "River Road") 1.5 (95.5 / 60) true;
        annotated (VStr "Arrive") (VStr "Unnamed Road") 0 0 false ]
      = List.length raw /\
    Forall2
      (fun step st =>
         getitem st "road" = get step "name" (VStr "Unnamed Road") /\
         exists maneuver,
           getitem step "maneuver" = Returns maneuver /\
           getitem st "instruction" = getitem maneuver "instruction")
      raw
      [ annotated (VStr "Turn left") (VStr "River Road") 1.5 (95.5 / 60) true;
        annotated (VStr "Arrive") (VStr "Unnamed Road") 0 0 false ].
Proof.
  apply (route_steps_follow_raw_steps (fun _ _ => Returns unnamed_route)
           here there "flood"
           (VDict [ ("distance", VInt 1500); ("duration", VFloat 95.5);
                    ("steps", VList
                       [ annotated (VStr "Turn left") (VStr "River Road")
                           1.5 (95.5 / 60) true;
                         annotated (VStr "Arrive") (VStr "Unnamed Road") 0 0 false ]);
                    ("polyline", VStr "??") ]%string)).
  - vm_compute. reflexivity.
  - reflexivity.
Defined.

Lemma among_In (v : value) (roads : list string) :
  among v roads = true <-> exists name, v = VStr name /\ In name roads.
Proof.
  split.
  - destruct v; cbn; try discriminate. intros H.
    apply existsb_exists in H. destruct H as (name & Hin & Heq).
    apply String.eqb_eq in Heq. subst. eauto.
  - intros (name & -> & Hin). cbn. apply existsb_exists.
    exists name. split; [exact Hin | apply String.eqb_refl].
Qed.

(** X8. A step of a returned route is blocked exactly when its road is a
    string that the table lists for the disaster type in lower case; the
    comparison with the listed names is exact. *)
Theorem blocked_iff_listed
    (request_route : point -> point -> outcome value)
    (start_coord end_coord : point) (disaster_type : string)
    (out : value) (steps : list value) (st : value) :
  get_safe_route request_route start_coord end_coord disaster_type = Returns out ->
  getitem out "steps" = Returns (VList steps) ->
  In st steps ->
  (getitem st "blocked" = Returns (VBool true) <->
   exists name,
     getitem st "road" = Returns (VStr name) /\
     In name (table_get (lower disaster_type) simulated_blockages [])).
Proof.
  intros H Hs Hin.
  destruct (get_safe_route_steps _ _ _ _ _ _ H Hs) as (rd & raw & _ & _ & HF).
  destruct (Forall2_In_r _ _ _ _ HF Hin) as (step & _ & Hst).
  destruct (route_step_fields _ _ _ Hst) as (_ & _ & _ & _ & rn & Hroad & Hb).
  rewrite Hroad, Hb. unfold blockage_of. split.
  - intros E. injection E as E. apply among_In in E.
    destruct E as (name & -> & Hname). eauto.
  - intros (name & E & Hname). injection E as ->.
    do 2 f_equal. apply among_In. eauto.
Qed.

Lemma blocked_iff_listed_witness :
  getitem (annotated (VStr "Turn left") (VStr "Main Street") 1.5 (95.5 / 60) true)
    "blocked" = Returns (VBool true) <->
  exists name,
    getitem (annotated (VStr "Turn left") (VStr "Main Street") 1.5 (95.5 / 60) true)
      "road" = Returns (VStr name) /\
    In name (table_get (lower "Flood") simulated_blockages []).
Proof.
  apply (blocked_iff_listed (fun _ _ => Returns (sample_route "Ok"))
           here there "Flood" sample_out sample_steps).
  - vm_compute. reflexivity.
  - reflexivity.
  - simpl. auto.
Defined.

(** X9. A response with the code ["Ok"] and an empty list of routes is not
    turned into an error dict: the [IndexError] of [routes[0]] leaves
    [get_safe_route]. *)
Theorem empty_routes_raise
    (request_route : point -> point -> outcome value)
    (start_coord end_coord : point) (disaster_type : string)
    (entries : list (string * value)) :
  request_route start_coord end_coord = Returns (VDict entries) ->
  lookup "code" entries = Some (VStr "Ok") ->
  lookup "routes" entries = Some (VList []) ->
  get_safe_route request_route start_coord end_coord disaster_type
    = Raises IndexError.
Proof.
  intros Hreq Hcode Hroutes. unfold get_safe_route. rewrite Hreq. cbn [bind].
  unfold assemble, get, raw_steps, first_route, getitem.
  rewrite Hcode, Hroutes. reflexivity.
Qed.

Lemma empty_routes_raise_witness :
  get_safe_route
    (fun _ _ => Returns (VDict [("code", VStr "Ok"); ("routes", VList [])]%string))
    here there "Fire" = Raises IndexError.
Proof.
  apply (empty_routes_raise _ here there "Fire"
           [("code", VStr "Ok"); ("routes", VList [])]%string); reflexivity.
Defined.

Lemma lower_char_idempotent (c : ascii) : lower_char (lower_char c) = lower_char c.
Proof. destruct c as [[] [] [] [] [] [] [] []]; reflexivity. Qed.

Lemma lower_idempotent (s : string) : lower (lower s) = lower s.
Proof.
  induction s as [|c s IH]; simpl; [reflexivity|].
  rewrite lower_char_idempotent, IH. reflexivity.
Qed.

Lemma assemble_lower (route_data : value) (d1 d2 : string) :
  lower d1 = lower d2 -> assemble route_data d1 = assemble route_data d2.
Proof.
  intros E. unfold assemble.
  destruct (get route_data "code" VNone) as [code|e]; cbn [bind]; [|reflexivity].
  destruct (negb (is_Ok code)); [reflexivity|].
  destruct (raw_steps route_data) as [steps|e]; cbn [bind]; [|reflexivity].
  rewrite (for_steps_lower d1 d2 steps E). reflexivity.
Qed.

(** X10. Lowering the disaster type before the call, as line 232 does, is
    harmless: [get_safe_route] lowers it again, and lowering twice is
    lowering once. *)
Theorem lowered_at_call_site
    (request_route : point -> point -> outcome value)
    (start_coord end_coord : point) (disaster_type : string) :
  lower (lower disaster_type) = lower disaster_type /\
  get_safe_route request_route start_coord end_coord (lower disaster_type) =
  get_safe_route request_route start_coord end_coord disaster_type.
Proof.
  split; [apply lower_idempotent|].
  unfold get_safe_route. f_equal.
  destruct (request_route start_coord end_coord) as [route_data|e]; cbn [bind];
    [|reflexivity].
  apply assemble_lower, lower_idempotent.
Qed.

Lemma for_steps_fails (disaster_type : string) (good : list value)
    (bad : value) (rest : list value) (e : exn) :
  Forall (fun step => exists st, route_step disaster_type step = Returns st) good ->
  route_step disaster_type bad = Raises e ->
  forall route_steps,
    for_steps disaster_type (good ++ bad :: rest) route_steps = Raises e.
Proof.
  intros Hgood Hbad. induction Hgood as [|step good (st & Hst) _ IH];
    intros route_steps; simpl.
  - rewrite Hbad. reflexivity.
  - rewrite Hst. cbn [bind]. apply IH.
Qed.

(** X11. One step that cannot be annotated fails the whole route, however
    many steps before it could: no partial list of steps is returned. The
    exception of that step is handled as any other: a [KeyError] becomes
    the dict of an invalid format, the others leave the function. *)
Theorem one_bad_step_fails_the_route
    (request_route : point -> point -> outcome value)
    (start_coord end_coord : point) (disaster_type : string)
    (route_data : value) (good : list value) (bad : value)
    (rest : list value) (e : exn) :
  request_route start_coord end_coord = Returns route_data ->
  get route_data "code" VNone = Returns (VStr "Ok") ->
  raw_steps route_data = Returns (good ++ bad :: rest) ->
  Forall (fun step => exists st, route_step disaster_type step = Returns st) good ->
  route_step disaster_type bad = Raises e ->
  get_safe_route request_route start_coord end_coord disaster_type
    = handled (Raises e) /\
  (e = KeyError ->
   get_safe_route request_route start_coord end_coord disaster_type
     = Returns (VDict [("error", VStr "Invalid route data format")]%string)) /\
  (forall out,
     get_safe_route request_route start_coord end_coord disaster_type = Returns out ->
     getitem out "steps" = Raises KeyError).
Proof.
  intros Hreq Hcode Hraw Hgood Hbad.
  assert (E : get_safe_route request_route start_coord end_coord disaster_type
              = handled (Raises e)).
  { unfold get_safe_route. rewrite Hreq. cbn [bind]. unfold assemble.
    rewrite Hcode. cbn [bind is_Ok negb String.eqb Ascii.eqb Bool.eqb].
    rewrite Hraw. cbn [bind].
    rewrite (for_steps_fails _ _ _ _ _ Hgood Hbad). reflexivity. }
  split; [exact E|]. split.
  - intros ->. rewrite E. reflexivity.
  - intros out Hout. rewrite E in Hout.
    destruct e; cbn [handled] in Hout; try discriminate;
      injection Hout as <-; reflexivity.
Qed.

Lemma one_bad_step_fails_the_route_witness :
  get_safe_route (fun _ _ => Returns broken_route) here there "Flood"
    = handled (Raises KeyError) /\
  (KeyError = KeyError ->
   get_safe_route (fun _ _ => Returns broken_route) here there "Flood"
     = Returns (VDict [("error", VStr "Invalid route data format")]%string)) /\
  (forall out,
     get_safe_route (fun _ _ => Returns broken_route) here there "Flood" = Returns out ->
     getitem out "steps" = Raises KeyError).
Proof.
  apply (one_bad_step_fails_the_route (fun _ _ => Returns broken_route)
           here there "Flood" broken_route
           [sample_step "River Road"]
           (VDict [ ("name", VStr "Oak Ave"); ("distance", VInt 10);
                    ("duration", VInt 5) ]%string)
           [sample_step "Main Street"] KeyError).
  - reflexivity.
  - reflexivity.
  - reflexivity.
  - constructor; [|constructor]. eexists. vm_compute. reflexivity.
  - reflexivity.
Defined.

(** ** Further properties: the submission flow *)

Lemma calls_made_app (log log' : list event) :
  calls_made (log ++ log') = calls_made log ++ calls_made log'.
Proof. apply filter_app. Qed.

(** What the lookup adds to the log: its one call, and at most a report. *)
Lemma get_nearby_resources_log
    (request_resources : value -> value -> outcome value) (lat lon : value)
    (log0 log : list event) (o : outcome value) :
  get_nearby_resources request_resources lat lon log0 = (log, o) ->
  exists added,
    log = log0 ++ added /\ calls_made added = [CallResources] /\
    shows_plan added = false.
Proof.
  unfold get_nearby_resources, try_except, call, seq, emit, lift, ret.
  cbv beta iota.
  assert (Hreport : forall body,
            calls_made [CallResources; StError body] = [CallResources] /\
            shows_plan [CallResources; StError body] = false) by (split; reflexivity).
  destruct (request_resources lat lon) as [data|e].
  - destruct (get data "elements" (VList [])) as [v|e].
    + intros H. injection H as <- <-. exists [CallResources]. auto.
    + destruct e; intros H; injection H as <- <-;
        try (exists [CallResources]; split; [reflexivity | auto]);
        eexists [CallResources; _]; rewrite <- app_assoc;
        (split; [reflexivity | apply Hreport]).
  - destruct e; intros H; injection H as <- <-;
      try (exists [CallResources]; split; [reflexivity | auto]);
      eexists [CallResources; _]; rewrite <- app_assoc;
      (split; [reflexivity | apply Hreport]).
Qed.

Ltac log_case added :=
  let H := fresh "H" in
  let v := fresh "v" in
  let E := fresh "E" in
  intros H; cbv beta iota in H;
  try match goal with Hex : is_Exception _ = _ |- _ => rewrite Hex in H end;
  injection H as <- <-;
  exists added; rewrite <- ?app_assoc; repeat split; auto;
  intros v E; try discriminate; try (injection E as <-; discriminate).

(** What the analysis adds to the log; a result without the key [error] can
    only be a completion. *)
Lemma analyze_emergency_log (new_client : outcome unit)
    (generate_completion : string -> outcome value)
    (str_of_exn : exn -> string) (text location disaster_type : string)
    (log0 log : list event) (o : outcome value) :
  analyze_emergency new_client generate_completion str_of_exn
    text location disaster_type log0 = (log, o) ->
  exists added,
    log = log0 ++ added /\ shows_plan added = false /\
    (calls_made added = [] \/ calls_made added = [NewClient] \/
     calls_made added = [NewClient; CallGeneration]) /\
    (forall v, o = Returns v -> contains_key v "error" = Returns false ->
               calls_made added = [NewClient; CallGeneration]).
Proof.
  unfold analyze_emergency. destruct (is_blank text).
  { intros H. injection H as <- <-. exists []. rewrite app_nil_r.
    repeat split; auto. intros v E. injection E as <-. discriminate. }
  unfold try_except, get_ai_client, try_except, call, seq, emit, lift, ret.
  cbv beta iota.
  destruct new_client as [client|e].
  - destruct (generate_completion _) as [response|e].
    + destruct (if is_dict response then contains_key response "choices"
                else Returns false) as [[|]|e].
      * destruct (choices <- getitem response "choices" ;;
                  choice <- first choices ;; getitem choice "text") as [v|e].
        -- log_case [NewClient; CallGeneration].
        -- destruct (is_Exception e); log_case [NewClient; CallGeneration].
      * log_case [NewClient; CallGeneration].
      * destruct (is_Exception e); log_case [NewClient; CallGeneration].
    + destruct (is_Exception e); log_case [NewClient; CallGeneration].
  - destruct (is_Exception e) eqn:Hex.
    + log_case [NewClient; StError ("AI Service Error: " ++ str_of_exn e)%string].
    + log_case [NewClient].
Qed.

Section Paths.

Variable request_resources : value -> value -> outcome value.
Variable request_route : point -> point -> outcome value.
Variable new_client : outcome unit.
Variable generate_completion : string -> outcome value.
Variable str_of_exn : exn -> string.
Variable str_of_other : value -> string.
Variable str_of_float : float -> string.
Variable present : value -> value -> outcome unit.
Variables emergency_desc disaster_type : string.
Variables current_lat current_lon : float.

Local Abbreviation submitted :=
  (submission request_resources request_route new_client generate_completion
     str_of_exn str_of_other str_of_float present
     emergency_desc disaster_type current_lat current_lon).

Ltac halted n :=
  left; split;
  [ rewrite ?shows_plan_app;
    repeat match goal with H : shows_plan _ = false |- _ => rewrite H end;
    reflexivity
  | split;
    [ eauto
    | exists n; rewrite ?calls_made_app;
      repeat match goal with H : calls_made _ = _ |- _ => rewrite H end;
      reflexivity ] ].

(** The two ways a run can end: halted, with the calls made so far and no
    plan, or through, with every call made and the plan shown last. *)
Lemma submission_paths (log : list event) (out : outcome unit) :
  submitted [] = (log, out) ->
  (shows_plan log = false /\ (exists e, out = Raises e) /\
   exists n, calls_made log = firstn n every_call)
  \/
  (calls_made log = every_call /\
   exists before, log = before ++ [StSuccess; Presented] /\
                  shows_plan before = false).
Proof.
  unfold submission. destruct (is_blank emergency_desc).
  { intros H. injection H as <- <-. left. split; [reflexivity|].
    split; [eauto|]. exists 0%nat. reflexivity. }
  unfold seq at 1.
  destruct (get_nearby_resources _ _ _ []) as [log0 o0] eqn:Hg.
  apply get_nearby_resources_log in Hg. destruct Hg as (added0 & -> & Hc0 & Hp0).
  cbn [app]. destruct o0 as [shelters|e].
  2:{ intros H. injection H as <- <-. halted 1%nat. }
  destruct (truthy shelters); cbn [negb].
  2:{ unfold seq, emit, st_stop, lift. intros H. injection H as <- <-.
      halted 1%nat. }
  unfold with_route, call, seq, emit, st_stop, lift. cbv beta iota.
  destruct (first shelters) as [best|e];
    [|intros H; injection H as <- <-; halted 1%nat].
  destruct (getitem best "lat") as [la|e];
    [|intros H; injection H as <- <-; halted 1%nat].
  destruct (getitem best "lon") as [lo|e];
    [|intros H; injection H as <- <-; halted 1%nat].
  destruct (get_safe_route _ _ _ _) as [route_data|e];
    [|intros H; injection H as <- <-; halted 2%nat].
  destruct (contains_key route_data "error") as [[|]|e];
    [ | | intros H; injection H as <- <-; halted 2%nat].
  { destruct (getitem route_data "error") as [detail|e];
      intros H; injection H as <- <-; halted 2%nat. }
  destruct (analyze_emergency _ _ _ _ _ _ _) as [log2 o2] eqn:Ha.
  apply analyze_emergency_log in Ha.
  destruct Ha as (added2 & -> & Hp2 & Hc2 & Hfull).
  destruct o2 as [analysis|e].
  2:{ intros H. injection H as <- <-.
      destruct Hc2 as [Hc2 | [Hc2 | Hc2]];
        [halted 2%nat | halted 3%nat | halted 4%nat]. }
  destruct (contains_key analysis "error") as [[|]|e] eqn:Hck.
  - destruct (getitem analysis "error") as [body|e];
      intros H; injection H as <- <-;
      (destruct Hc2 as [Hc2 | [Hc2 | Hc2]];
       [halted 2%nat | halted 3%nat | halted 4%nat]).
  - specialize (Hfull analysis eq_refl Hck).
    intros H. injection H as <- <-. right. split.
    + rewrite !calls_made_app, Hc0, Hfull. reflexivity.
    + exists ((added0 ++ [CallRouting]) ++ added2). split.
      * rewrite <- !app_assoc. reflexivity.
      * rewrite !shows_plan_app, Hp0, Hp2. reflexivity.
  - intros H. injection H as <- <-.
    destruct Hc2 as [Hc2 | [Hc2 | Hc2]];
      [halted 2%nat | halted 3%nat | halted 4%nat].
Qed.

End Paths.

Section Runs.

Variable request_resources : value -> value -> outcome value.
Variable request_route : point -> point -> outcome value.
Variable new_client : outcome unit.
Variable generate_completion : string -> outcome value.
Variable str_of_exn : exn -> string.
Variable str_of_other : value -> string.
Variable str_of_float : float -> string.
Variable present : value -> value -> outcome unit.
Variables emergency_desc disaster_type : string.
Variables current_lat current_lon : float.

Local Abbreviation submitted :=
  (submission request_resources request_route new_client generate_completion
     str_of_exn str_of_other str_of_float present
     emergency_desc disaster_type current_lat current_lon).

(** X12. In every run each collaborator is called at most once and in the
    order map data, routing, client, completion: the calls of a run are
    the first [n] of these four, for some [n]. Nothing is retried. *)
Theorem calls_in_order :
  exists n, calls_made (fst (submitted [])) = firstn n every_call.
Proof.
  destruct (submitted []) as [log out] eqn:Hrun.
  destruct (submission_paths _ _ _ _ _ _ _ _ _ _ _ _ _ _ Hrun)
    as [(_ & _ & n & Hn) | (Hall & _)].
  - exists n. exact Hn.
  - exists 4%nat. exact Hall.
Qed.

(** X13. The plan is announced only when every collaborator has been
    called: a log with [st.success] or the rendering has the four calls,
    and ends with the announcement and the rendering. *)
Theorem plan_only_after_every_call (log : list event) (out : outcome unit) :
  submitted [] = (log, out) ->
  shows_plan log = true ->
  calls_made log = every_call /\
  exists before, log = before ++ [StSuccess; Presented] /\
                 shows_plan before = false.
Proof.
  intros Hrun Hplan.
  destruct (submission_paths _ _ _ _ _ _ _ _ _ _ _ _ _ _ Hrun)
    as [(Hno & _) | H]; [congruence | exact H].
Qed.

(** X14. A run ends without an exception only with the plan shown; every
    other run ends in [st.stop] or in an exception. *)
Theorem returns_only_with_plan (log : list event) (out : outcome unit) :
  submitted [] = (log, out) ->
  out = Returns tt ->
  shows_plan log = true /\ calls_made log = every_call.
Proof.
  intros Hrun ->.
  destruct (submission_paths _ _ _ _ _ _ _ _ _ _ _ _ _ _ Hrun)
    as [(_ & (e & He) & _) | (Hall & before & -> & _)]; [discriminate|].
  split; [|exact Hall]. rewrite shows_plan_app. apply orb_true_r.
Qed.

End Runs.

Lemma plan_only_after_every_call_witness :
  calls_made [CallResources; CallRouting; NewClient; CallGeneration;
              StSuccess; Presented] = every_call /\
  exists before,
    [CallResources; CallRouting; NewClient; CallGeneration; StSuccess; Presented]
      = before ++ [StSuccess; Presented] /\
    shows_plan before = false.
Proof.
  apply (plan_only_after_every_call calm_resources
           (fun _ _ => Returns (sample_route "Ok"))
           (Returns tt) (fun _ => Returns (VStr "Stay calm"))
           (fun _ => "exception"%string) (fun _ => "value"%string)
           (fun _ => "12.5"%string) (fun _ _ => Returns tt)
           "Flood waters rising" "Flood" 12.5 77.5 _ (Returns tt)).
  - reflexivity.
  - reflexivity.
Defined.

Lemma returns_only_with_plan_witness :
  shows_plan [CallResources; CallRouting; NewClient; CallGeneration;
              StSuccess; Presented] = true /\
  calls_made [CallResources; CallRouting; NewClient; CallGeneration;
              StSuccess; Presented] = every_call.
Proof.
  apply (returns_only_with_plan calm_resources
           (fun _ _ => Returns (sample_route "Ok"))
           (Returns tt) (fun _ => Returns (VStr "Stay calm"))
           (fun _ => "exception"%string) (fun _ => "value"%string)
           (fun _ => "12.5"%string) (fun _ _ => Returns tt)
           "Flood waters rising" "Flood" 12.5 77.5 _ (Returns tt)).
  - reflexivity.
  - reflexivity.
Defined.

Section Edges.

Variable request_resources : value -> value -> outcome value.
Variable request_route : point -> point -> outcome value.
Variable new_client : outcome unit.
Variable generate_completion : string -> outcome value.
Variable str_of_exn : exn -> string.
Variable str_of_other : value -> string.
Variable str_of_float : float -> string.
Variable present : value -> value -> outcome unit.
Variables emergency_desc disaster_type : string.
Variables current_lat current_lon : float.

Local Abbreviation submitted :=
  (submission request_resources request_route new_client generate_completion
     str_of_exn str_of_other str_of_float present
     emergency_desc disaster_type current_lat current_lon).

Local Abbreviation lookup_reply :=
  (request_resources (VFloat current_lat) (VFloat current_lon)).

(** X15. When the map-data request fails in transport, the user is told
    twice, the map data error and then that no shelter was found, and the
    run stops with the one call made. *)
Theorem lookup_transport_failure (detail : string) :
  is_blank emergency_desc = false ->
  lookup_reply = Raises (RequestException detail) ->
  submitted [] =
    ([ CallResources;
       StError ("Map data error: Failed to fetch resources (" ++ detail ++ ")");
       StError "No emergency shelters found in your area!" ],
     Raises StopException).
Proof.
  intros Hb Hreq. unfold submission. rewrite Hb.
  unfold get_nearby_resources, try_except, call, seq, emit, lift, ret, st_stop.
  rewrite Hreq. reflexivity.
Qed.

(** X16. A body without shelters, be it without the key [elements] or
    with elements that are empty, stops the run with the one message that
    no shelter was found; the routing service is not called. *)
Theorem no_shelter_stops (entries : list (string * value)) (shelters : value) :
  is_blank emergency_desc = false ->
  lookup_reply = Returns (VDict entries) ->
  get (VDict entries) "elements" (VList []) = Returns shelters ->
  truthy shelters = false ->
  submitted [] =
    ([CallResources; StError "No emergency shelters found in your area!"],
     Raises StopException).
Proof.
  intros Hb Hreq Hget Hfalsy. unfold submission. rewrite Hb.
  unfold get_nearby_resources, try_except, call, seq, emit, lift, ret, st_stop.
  rewrite Hreq. cbv beta iota. rewrite Hget, Hfalsy. reflexivity.
Qed.

(** X17. A body that is not a JSON object is not reported: the
    [AttributeError] of [data.get] leaves [get_nearby_resources] and ends
    the run. *)
Theorem lookup_body_not_a_dict (data : value) :
  is_blank emergency_desc = false ->
  lookup_reply = Returns data ->
  is_dict data = false ->
  submitted [] = ([CallResources], Raises AttributeError).
Proof.
  intros Hb Hreq Hnd. unfold submission. rewrite Hb.
  unfold get_nearby_resources, try_except, call, seq, emit, lift, ret, st_stop.
  rewrite Hreq. cbv beta iota.
  destruct data; try discriminate; reflexivity.
Qed.

(** X18. A first shelter without [lat] or without [lon] ends the run with
    a [KeyError], before the routing service is called. *)
Theorem shelter_without_coordinates
    (entries shelter : list (string * value)) (others : list value) :
  is_blank emergency_desc = false ->
  lookup_reply = Returns (VDict entries) ->
  lookup "elements" entries = Some (VList (VDict shelter :: others)) ->
  lookup "lat" shelter = None \/ lookup "lon" shelter = None ->
  submitted [] = ([CallResources], Raises KeyError).
Proof.
  intros Hb Hreq Hel Hmissing. unfold submission. rewrite Hb.
  unfold get_nearby_resources, try_except, call, seq, emit, lift, ret, st_stop.
  rewrite Hreq. cbv beta iota. unfold get. rewrite Hel. cbn [truthy negb first].
  unfold getitem. destruct Hmissing as [H | H].
  - rewrite H. reflexivity.
  - rewrite H. destruct (lookup "lat" shelter); reflexivity.
Qed.

End Edges.

Lemma lookup_transport_failure_witness :
  submission (fun _ _ => Raises (RequestException "timed out"))
    (fun _ _ => Returns (sample_route "Ok")) (Returns tt)
    (fun _ => Returns (VStr "Stay calm"))
    (fun _ => "exception"%string) (fun _ => "value"%string)
    (fun _ => "12.5"%string) (fun _ _ => Returns tt)
    "Flood waters rising" "Flood" 12.5 77.5 [] =
    ([ CallResources;
       StError "Map data error: Failed to fetch resources (timed out)";
       StError "No emergency shelters found in your area!" ],
     Raises StopException).
Proof.
  apply (lookup_transport_failure
           (fun _ _ => Raises (RequestException "timed out"))
           (fun _ _ => Returns (sample_route "Ok")) (Returns tt)
           (fun _ => Returns (VStr "Stay calm"))
           (fun _ => "exception"%string) (fun _ => "value"%string)
           (fun _ => "12.5"%string) (fun _ _ => Returns tt)
           "Flood waters rising" "Flood" 12.5 77.5 "timed out");
    reflexivity.
Defined.

Lemma no_shelter_stops_witness :
  submission (fun _ _ => Returns (VDict [("remark", VStr "runtime error")]%string))
    (fun _ _ => Returns (sample_route "Ok")) (Returns tt)
    (fun _ => Returns (VStr "Stay calm"))
    (fun _ => "exception"%string) (fun _ => "value"%string)
    (fun _ => "12.5"%string) (fun _ _ => Returns tt)
    "Flood waters rising" "Flood" 12.5 77.5 [] =
    ([CallResources; StError "No emergency shelters found in your area!"],
     Raises StopException).
Proof.
  apply (no_shelter_stops
           (fun _ _ => Returns (VDict [("remark", VStr "runtime error")]%string))
           _ _ _ _ _ _ _ _ _ _ _
           [("remark", VStr "runtime error")]%string (VList []));
    reflexivity.
Defined.

Lemma lookup_body_not_a_dict_witness :
  submission (fun _ _ => Returns (VList []))
    (fun _ _ => Returns (sample_route "Ok")) (Returns tt)
    (fun _ => Returns (VStr "Stay calm"))
    (fun _ => "exception"%string) (fun _ => "value"%string)
    (fun _ => "12.5"%string) (fun _ _ => Returns tt)
    "Flood waters rising" "Flood" 12.5 77.5 [] =
    ([CallResources], Raises AttributeError).
Proof.
  apply (lookup_body_not_a_dict (fun _ _ => Returns (VList []))
           _ _ _ _ _ _ _ _ _ _ _ (VList []));
    reflexivity.
Defined.

Lemma shelter_without_coordinates_witness :
  submission
    (fun _ _ => Returns (VDict [("elements", VList [VDict [("lat", VFloat 1)]])]%string))
    (fun _ _ => Returns (sample_route "Ok")) (Returns tt)
    (fun _ => Returns (VStr "Stay calm"))
    (fun _ => "exception"%string) (fun _ => "value"%string)
    (fun _ => "12.5"%string) (fun _ _ => Returns tt)
    "Flood waters rising" "Flood" 12.5 77.5 [] =
    ([CallResources], Raises KeyError).
Proof.
  apply (shelter_without_coordinates
           (fun _ _ => Returns (VDict [("elements", VList [VDict [("lat", VFloat 1)]])]%string))
           _ _ _ _ _ _ _ _ _ _ _
           [("elements", VList [VDict [("lat", VFloat 1)]])]%string
           [("lat", VFloat 1)]%string []);
    [reflexivity | reflexivity | reflexivity | right; reflexivity].
Defined.

Lemma ordinary_getitem (v : value) (key : string) : ordinary (getitem v key).
Proof.
  intros e. destruct v; cbn; try (intros H; injection H as <-; reflexivity).
  destruct (lookup key entries); [discriminate|].
  intros H; injection H as <-; reflexivity.
Qed.

Lemma ordinary_first (v : value) : ordinary (first v).
Proof.
  intros e. destruct v as [| | | |s|items|]; cbn;
    try (intros H; injection H as <-; reflexivity).
  - destruct s; [|discriminate]. intros H; injection H as <-; reflexivity.
  - destruct items; [|discriminate]. intros H; injection H as <-; reflexivity.
Qed.

Lemma ordinary_contains_key (v : value) (key : string) :
  ordinary (contains_key v key).
Proof.
  intros e. destruct v; cbn; try discriminate;
    intros H; injection H as <-; reflexivity.
Qed.

Lemma ordinary_bind {A B : Type} (o : outcome A) (k : A -> outcome B) :
  ordinary o -> (forall a, ordinary (k a)) -> ordinary (bind o k).
Proof.
  intros Ho Hk e. destruct o as [a|e']; cbn.
  - apply Hk.
  - intros H. injection H as <-. apply Ho. reflexivity.
Qed.

Section Analysis.

Variable new_client : outcome unit.
Variable generate_completion : string -> outcome value.
Variable str_of_exn : exn -> string.
Variables text location disaster_type : string.

Local Abbreviation analysed :=
  (analyze_emergency new_client generate_completion str_of_exn
     text location disaster_type).

(** X19. [analyze_emergency] lets no exception of its collaborators through:
    unless one of them raises what [st.stop] raises, it returns a value,
    whatever the client and the completion do. *)
Theorem analyze_emergency_returns (log : list event) :
  new_client <> Raises StopException ->
  (forall prompt, generate_completion prompt <> Raises StopException) ->
  exists log' analysis, analysed log = (log', Returns analysis).
Proof.
  intros Hclient Hgen. unfold analyze_emergency.
  destruct (is_blank text); [unfold ret; eauto|].
  assert (Hcaught : forall e, e <> StopException -> is_Exception e = true)
    by (intros []; try reflexivity; intros H; now contradiction H).
  unfold try_except, get_ai_client, try_except, call, seq, emit, lift, ret.
  cbv beta iota.
  destruct new_client as [client|e].
  - specialize (Hgen (prompt_of text location disaster_type)).
    destruct (generate_completion _) as [response|e].
    + destruct (if is_dict response then contains_key response "choices"
                else Returns false) as [[|]|e] eqn:Hchoices; [| eauto |].
      * destruct (choices <- getitem response "choices" ;;
                  choice <- first choices ;; getitem choice "text")
          as [v|e] eqn:Hread; [eauto|].
        rewrite (ordinary_bind _ _ (ordinary_getitem _ _)
                   (fun choices => ordinary_bind _ _ (ordinary_first _)
                      (fun choice => ordinary_getitem _ _)) e Hread).
        eauto.
      * assert (He : is_Exception e = true).
        { destruct (is_dict response); [|discriminate].
          apply (ordinary_contains_key _ _ e Hchoices). }
        rewrite He. eauto.
    + rewrite Hcaught by congruence. eauto.
  - assert (He : is_Exception e = true) by (apply Hcaught; congruence).
    rewrite He. cbv beta iota. eauto.
Qed.

(** X20. When the client cannot be made, the failure is reported, the
    completion is not asked for, and the analysis is the dict of the error
    ["AI service unavailable"]. *)
Theorem client_failure_is_unavailable (log : list event) (e : exn) :
  is_blank text = false ->
  new_client = Raises e ->
  is_Exception e = true ->
  analysed log =
    (log ++ [NewClient; StError ("AI Service Error: " ++ str_of_exn e)],
     Returns (VDict [("error", VStr "AI service unavailable")]%string)).
Proof.
  intros Hb Hclient He. unfold analyze_emergency. rewrite Hb.
  unfold try_except, get_ai_client, try_except, call, seq, emit, lift, ret.
  rewrite Hclient. cbv beta iota. rewrite He. cbv beta iota.
  rewrite <- app_assoc. reflexivity.
Qed.

End Analysis.

Lemma analyze_emergency_returns_witness :
  exists log' analysis,
    analyze_emergency (Returns tt) (fun _ => Raises (OtherException "quota"))
      (fun _ => "quota"%string) "Fire nearby" "12.5,77.5" "Fire" []
      = (log', Returns analysis).
Proof.
  apply (analyze_emergency_returns (Returns tt)
           (fun _ => Raises (OtherException "quota"))
           (fun _ => "quota"%string) "Fire nearby" "12.5,77.5" "Fire" []).
  - discriminate.
  - intros prompt. discriminate.
Defined.

Lemma client_failure_is_unavailable_witness :
  analyze_emergency (Raises (OtherException "no key")) (fun _ => Returns VNone)
    (fun _ => "no key"%string) "Fire nearby" "12.5,77.5" "Fire" [] =
    ([NewClient; StError "AI Service Error: no key"],
     Returns (VDict [("error", VStr "AI service unavailable")]%string)).
Proof.
  apply (client_failure_is_unavailable (Raises (OtherException "no key"))
           (fun _ => Returns VNone) (fun _ => "no key"%string)
           "Fire nearby" "12.5,77.5" "Fire" [] (OtherException "no key"));
    reflexivity.
Defined.

(** X21. A completion that is a text with the letters [error] in it is
    taken for a failure by the test of line 246, a substring test on a
    [str]; reading [analysis['error']] then raises [TypeError], and the run
    ends on it after every call was made, with no plan shown. *)
Theorem completion_mentioning_error_crashes
    (request_resources : value -> value -> outcome value)
    (request_route : point -> point -> outcome value)
    (new_client : outcome unit)
    (generate_completion : string -> outcome value)
    (str_of_exn : exn -> string) (str_of_other : value -> string)
    (str_of_float : float -> string)
    (present : value -> value -> outcome unit)
    (emergency_desc disaster_type : string) (current_lat current_lon : float)
    (log log' : list event) (route_data : value) (text : string) :
  is_blank emergency_desc = false ->
  routed request_resources request_route disaster_type current_lat current_lon
    log route_data ->
  contains_key route_data "error" = Returns false ->
  analyze_emergency new_client generate_completion str_of_exn emergency_desc
    (str_of_float current_lat ++ "," ++ str_of_float current_lon)
    disaster_type log = (log', Returns (VStr text)) ->
  substring_of "error" text = true ->
  submission request_resources request_route new_client generate_completion
    str_of_exn str_of_other str_of_float present
    emergency_desc disaster_type current_lat current_lon []
    = (log', Raises TypeError).
Proof.
  intros Hb Hrouted Hok Ha Hsub.
  destruct (submission_routed _ _ new_client generate_completion str_of_exn
              str_of_other str_of_float present _ _ _ _ _ _ Hb Hrouted)
    as (E & _ & _).
  rewrite E. unfold with_route.
  rewrite (seq_Returns (lift (contains_key route_data "error")) _ log log false)
    by (unfold lift; rewrite Hok; reflexivity).
  cbv beta iota. rewrite (seq_Returns _ _ _ _ _ Ha).
  rewrite (seq_Returns (lift (contains_key (VStr text) "error")) _ log' log' true)
    by (unfold lift; cbn [contains_key]; rewrite Hsub; reflexivity).
  reflexivity.
Qed.

Lemma completion_mentioning_error_crashes_witness :
  submission calm_resources (fun _ _ => Returns (sample_route "Ok"))
    (Returns tt) (fun _ => Returns (VStr "In case of error call 112"))
    (fun _ => "exception"%string) (fun _ => "value"%string)
    (fun _ => "12.5"%string) (fun _ _ => Returns tt)
    "Flood waters rising" "Flood" 12.5 77.5 []
    = ([CallResources; CallRouting; NewClient; CallGeneration], Raises TypeError).
Proof.
  apply (completion_mentioning_error_crashes calm_resources
           (fun _ _ => Returns (sample_route "Ok"))
           (Returns tt) (fun _ => Returns (VStr "In case of error call 112"))
           (fun _ => "exception"%string) (fun _ => "value"%string)
           (fun _ => "12.5"%string) (fun _ _ => Returns tt)
           "Flood waters rising" "Flood" 12.5 77.5
           [CallResources; CallRouting]
           [CallResources; CallRouting; NewClient; CallGeneration]
           sample_out "In case of error call 112").
  - reflexivity.
  - unfold routed. eexists _, _, _, _, _.
    repeat split; reflexivity.
  - reflexivity.
  - reflexivity.
  - reflexivity.
Defined.

(** X22. A response with the code ["Ok"] that lacks the key [routes] is
    reported as an invalid format: the [KeyError] is caught. *)
Theorem missing_routes_is_invalid_format
    (request_route : point -> point -> outcome value)
    (start_coord end_coord : point) (disaster_type : string)
    (entries : list (string * value)) :
  request_route start_coord end_coord = Returns (VDict entries) ->
  lookup "code" entries = Some (VStr "Ok") ->
  lookup "routes" entries = None ->
  get_safe_route request_route start_coord end_coord disaster_type
    = Returns (VDict [("error", VStr "Invalid route data format")]%string).
Proof.
  intros Hreq Hcode Hroutes. unfold get_safe_route. rewrite Hreq. cbn [bind].
  unfold assemble, get, raw_steps, first_route, getitem.
  rewrite Hcode, Hroutes. reflexivity.
Qed.

Lemma missing_routes_is_invalid_format_witness :
  get_safe_route (fun _ _ => Returns (VDict [("code", VStr "Ok")]%string))
    here there "Fire"
    = Returns (VDict [("error", VStr "Invalid route data format")]%string).
Proof.
  apply (missing_routes_is_invalid_format _ here there "Fire"
           [("code", VStr "Ok")]%string); reflexivity.
Defined.

(** X23. When the routing request fails in transport, the run stops with
    the message ["Routing error: Routing service error: "] and the detail,
    and the text generation is not called. *)
Theorem routing_transport_failure
    (request_resources : value -> value -> outcome value)
    (request_route : point -> point -> outcome value)
    (new_client : outcome unit)
    (generate_completion : string -> outcome value)
    (str_of_exn : exn -> string) (str_of_other : value -> string)
    (str_of_float : float -> string)
    (present : value -> value -> outcome unit)
    (emergency_desc disaster_type : string) (current_lat current_lon : float)
    (log : list event) (shelters best_shelter shelter_lat shelter_lon : value)
    (detail : string) :
  is_blank emergency_desc = false ->
  get_nearby_resources request_resources (VFloat current_lat) (VFloat current_lon) []
    = (log, Returns shelters) ->
  truthy shelters = true ->
  first shelters = Returns best_shelter ->
  getitem best_shelter "lat" = Returns shelter_lat ->
  getitem best_shelter "lon" = Returns shelter_lon ->
  request_route (VFloat current_lat, VFloat current_lon) (shelter_lat, shelter_lon)
    = Raises (RequestException detail) ->
  submission request_resources request_route new_client generate_completion
    str_of_exn str_of_other str_of_float present
    emergency_desc disaster_type current_lat current_lon []
    = (log ++ [ CallRouting;
                StError ("Routing error: Routing service error: " ++ detail) ],
       Raises StopException) /\
  attempted Generation
    (log ++ [ CallRouting;
              StError ("Routing error: Routing service error: " ++ detail) ])
    = false.
Proof.
  intros Hb Hg Ht Hbest Hla Hlo Hreq.
  assert (Hroute : get_safe_route request_route
                     (VFloat current_lat, VFloat current_lon)
                     (shelter_lat, shelter_lon) (lower disaster_type)
                   = Returns (VDict [("error",
                        VStr ("Routing service error: " ++ detail))]%string)).
  { unfold get_safe_route. rewrite Hreq. reflexivity. }
  split.
  - assert (Hrouted : routed request_resources request_route disaster_type
                        current_lat current_lon (log ++ [CallRouting])
                        (VDict [("error",
                           VStr ("Routing service error: " ++ detail))]%string)).
    { exists log, shelters, best_shelter, shelter_lat, shelter_lon.
      repeat split; auto. }
    destruct (submission_routed _ _ new_client generate_completion str_of_exn
                str_of_other str_of_float present _ _ _ _ _ _ Hb Hrouted)
      as (E & _ & _).
    rewrite E. unfold with_route, seq, lift, emit, st_stop. cbn.
    rewrite <- app_assoc. reflexivity.
  - destruct (after_lookup _ _ _ _ _ Hg) as (_ & Hgen & _).
    rewrite attempted_app, Hgen. reflexivity.
Qed.

Lemma routing_transport_failure_witness :
  submission calm_resources (fun _ _ => Raises (RequestException "timed out"))
    (Returns tt) (fun _ => Returns (VStr "Stay calm"))
    (fun _ => "exception"%string) (fun _ => "value"%string)
    (fun _ => "12.5"%string) (fun _ _ => Returns tt)
    "Flood waters rising" "Flood" 12.5 77.5 []
    = ([CallResources] ++
       [ CallRouting;
         StError ("Routing error: Routing service error: " ++ "timed out") ],
       Raises StopException) /\
  attempted Generation
    ([CallResources] ++
     [ CallRouting;
       StError ("Routing error: Routing service error: " ++ "timed out") ])
    = false.
Proof.
  apply (routing_transport_failure calm_resources
           (fun _ _ => Raises (RequestException "timed out"))
           (Returns tt) (fun _ => Returns (VStr "Stay calm"))
           (fun _ => "exception"%string) (fun _ => "value"%string)
           (fun _ => "12.5"%string) (fun _ _ => Returns tt)
           "Flood waters rising" "Flood" 12.5 77.5
           [CallResources]
           (VList [VDict [("lat", VFloat 1); ("lon", VFloat 2)]%string])
           (VDict [("lat", VFloat 1); ("lon", VFloat 2)]%string)
           (VFloat 1) (VFloat 2) "timed out");
    reflexivity.
Defined.
